(** * A model of the user service in [src/web/app.py]

    The service is a Flask application with five CRUD handlers over one
    PostgreSQL table, [users], and one Redis key, ['all_users'], that caches
    the result of the list handler for 30 seconds.

    The handlers are embedded as functions in a small state-and-exception
    monad over a [World]: the committed table, the open transaction, the
    sequence behind the SERIAL column, the Redis key with its expiry, the
    clock, and a log of every call made to the two collaborators.

    What the model fixes about the collaborators:
    - requests are served one at a time, and what is in reach does not
      change while a request is served; between requests Redis and
      PostgreSQL may stop or resume answering and time may pass ([Step]);
    - PostgreSQL is modelled as far as the CREATE TABLE statement of
      [init_db] decides it: the SERIAL sequence with its largest value
      2147483647, the primary key, the two UNIQUE and NOT NULL constraints
      and the VARCHAR lengths (a character of the model is a character of
      the column);
    - psycopg2 refuses a string parameter that holds a NUL character before
      anything is sent to the server;
    - psycopg2 opens a transaction with the first statement; [commit] makes
      its writes durable, [rollback] and [close] drop what is not committed;
    - a Redis call on a client whose server does not answer raises; a key
      set with [ex=30] at time [t] is gone from time [t + 30] on;
    - an exception that leaves a view function is answered 500 by Flask. *)

From stdpp Require Import gmap strings list fin_maps.

Local Open Scope string_scope.
Local Open Scope list_scope.
Local Open Scope Z_scope.

(** ** Data *)

(** A row as the handlers render it: [{"id": .., "username": .., "email": ..}]. *)
Record User := mkUser { u_id : Z; u_username : string; u_email : string }.

(** The body of a request, as far as the handlers read it:
    [data.get('username')] and [data.get('email')], each a string or [None]
    (key absent, or JSON null). *)
Record Json := mkJson { get_username : option string; get_email : option string }.

(** Python truthiness of such a value: [None] and [''] are falsy. *)
Definition truthy (v : option string) : bool :=
  match v with
  | Some (String _ _) => true
  | _ => false
  end.

(** The exceptions the handlers can meet. [IntegrityError] is
    [psycopg2.IntegrityError] (UNIQUE, NOT NULL and PRIMARY KEY violations),
    [DataError] is psycopg2's error for a value that does not fit its column
    and for a sequence that has no value left, [ValueError] is what psycopg2
    raises for a string parameter that holds a NUL character,
    [RedisConnectionError] is what a Redis call raises when the server cannot
    be reached. The last three are only caught by [except Exception]. *)
Inductive Exc := IntegrityError | DataError | ValueError | RedisConnectionError.

Inductive Stmt := INSERT | SELECT_all | SELECT_one | UPDATE | DELETE.

(** Calls to the collaborators, in the order they are made. *)
Inductive Event :=
| EConnect
| EExecute (s : Stmt)
| ECommit
| ERollback
| EClose
| ERedisGet
| ERedisSet
| ERedisDelete.

Definition store_event (e : Event) : bool :=
  match e with
  | EConnect | EExecute _ | ECommit | ERollback | EClose => true
  | _ => false
  end.

Definition cache_event (e : Event) : bool := negb (store_event e).

Inductive Body :=
| JUser (id : Z) (username email : option string)
| JUsers (users : list User)
| JError (error : string)
| JException (e : Exc)
| JMessage (id : Z) (message : string)
| InternalServerError.

Record Response := jsonify { body : Body; status : Z }.

(** ** The world *)

Record World := mkWorld {
  db_alive : bool;                       (* psycopg2.connect succeeds *)
  users : gmap Z (string * string);      (* committed rows: id -> (username, email) *)
  users_id_seq : Z;                      (* last value of the SERIAL sequence *)
  txn : gmap Z (string * string);        (* rows as the open transaction sees them *)
  redis_client : bool;                   (* the module-level client is not None *)
  redis_alive : bool;                    (* the Redis server answers *)
  all_users : option (list User * Z);    (* the cached list and its expiry time *)
  now : Z;                               (* clock, in seconds *)
  log : list Event
}.

Definition set_users t w :=
  mkWorld (db_alive w) t (users_id_seq w) (txn w) (redis_client w)
          (redis_alive w) (all_users w) (now w) (log w).
Definition set_seq n w :=
  mkWorld (db_alive w) (users w) n (txn w) (redis_client w)
          (redis_alive w) (all_users w) (now w) (log w).
Definition set_txn t w :=
  mkWorld (db_alive w) (users w) (users_id_seq w) t (redis_client w)
          (redis_alive w) (all_users w) (now w) (log w).
Definition set_all_users c w :=
  mkWorld (db_alive w) (users w) (users_id_seq w) (txn w) (redis_client w)
          (redis_alive w) c (now w) (log w).
Definition record (e : Event) w :=
  mkWorld (db_alive w) (users w) (users_id_seq w) (txn w) (redis_client w)
          (redis_alive w) (all_users w) (now w) (log w ++ [e]).
Definition tick (d : Z) w :=
  mkWorld (db_alive w) (users w) (users_id_seq w) (txn w) (redis_client w)
          (redis_alive w) (all_users w) (now w + d) (log w).

(** ** The monad: state passing with exceptions *)

Inductive Outcome (A : Type) := Return (a : A) | Raise (e : Exc).
Arguments Return {A} a.
Arguments Raise {A} e.

Definition M (A : Type) : Type := World -> Outcome A * World.

Definition ret {A} (a : A) : M A := fun w => (Return a, w).

Definition bind {A B} (m : M A) (k : A -> M B) : M B := fun w =>
  match m w with
  | (Return a, w') => k a w'
  | (Raise e, w') => (Raise e, w')
  end.

Notation "x <- m ;; k" := (bind m (fun x => k))
  (at level 100, m at next level, right associativity).
Notation "m ;;; k" := (bind m (fun _ => k))
  (at level 100, right associativity).

(** [try: body except e: handler e] *)
Definition try_except {A} (body : M A) (handler : Exc -> M A) : M A := fun w =>
  match body w with
  | (Return a, w') => (Return a, w')
  | (Raise e, w') => handler e w'
  end.

(** [try: body finally: final]; the body's result (or exception) stands
    unless [final] itself raises. *)
Definition try_finally {A} (body : M A) (final : M unit) : M A := fun w =>
  let '(r, w') := body w in
  match final w' with
  | (Return _, w'') => (r, w'')
  | (Raise e, w'') => (Raise e, w'')
  end.

(** ** The record store: PostgreSQL behind psycopg2

    The table is the one [init_db] creates:
    [id SERIAL PRIMARY KEY, username VARCHAR(80) UNIQUE NOT NULL,
     email VARCHAR(120) UNIQUE NOT NULL]. *)

Fixpoint all_spaces (s : string) : bool :=
  match s with
  | EmptyString => true
  | String c s' => Ascii.eqb c (Ascii.ascii_of_nat 32) && all_spaces s'
  end.

(** Storing a string into a VARCHAR(n) column: a value of at most [n]
    characters is kept as it is; a longer one is cut to [n] characters when
    only spaces are lost, and is an error otherwise. *)
Definition varchar (n : nat) (s : string) : option string :=
  if decide (String.length s ≤ n)%nat then Some s
  else if all_spaces (String.substring n (String.length s - n) s)
       then Some (String.substring 0 n s)
       else None.

(** A statement parameter is a string or NULL ([None] on the Python side). *)
Definition varchar_param (n : nat) (p : option string) : option (option string) :=
  match p with
  | None => Some None
  | Some s => Some <$> varchar n s
  end.

(** A string that holds the character of code 0. *)
Fixpoint has_nul (s : string) : bool :=
  match s with
  | EmptyString => false
  | String c s' => Ascii.eqb c Ascii.zero || has_nul s'
  end.

(** psycopg2 cannot quote such a string: [cur.execute] raises [ValueError]
    while it builds the statement. NULL and every other string pass. *)
Definition unquotable (p : option string) : bool :=
  match p with
  | Some s => has_nul s
  | None => false
  end.

(** The largest value of the sequence behind a SERIAL column. *)
Definition seq_max : Z := 2147483647.

(** A row other than [id] already holds this username or this email. *)
Definition conflict (t : gmap Z (string * string)) (id : Z) (u e : string) : bool :=
  bool_decide (map_Exists (λ k r, k ≠ id ∧ (r.1 = u ∨ r.2 = e)) t).

Definition row (kr : Z * (string * string)) : User :=
  mkUser kr.1 kr.2.1 kr.2.2.

(** [psycopg2.connect(...)] wrapped by [get_db_connection]: the exception of
    a failed connection is caught there and [None] is returned. A new
    connection starts from the committed rows. *)
Inductive Conn := Connection.

Definition get_db_connection : M (option Conn) := fun w =>
  let w := record EConnect w in
  if db_alive w then (Return (Some Connection), set_txn (users w) w)
  else (Return None, w).

(** [INSERT INTO users (username, email) VALUES (%s, %s) RETURNING id]
    followed by [cur.fetchone()[0]]. A parameter psycopg2 cannot quote stops
    the call before the server is asked; a value that does not fit its
    column and a sequence with no value left are errors of the server. The
    sequence is advanced before the constraints are checked and is not
    restored when the statement fails. *)
Definition execute_insert (username email : option string) : M Z := fun w =>
  let w := record (EExecute INSERT) w in
  if unquotable username || unquotable email then (Raise ValueError, w) else
  match varchar_param 80 username, varchar_param 120 email with
  | Some u, Some e =>
      if bool_decide (seq_max ≤ users_id_seq w) then (Raise DataError, w) else
      let id := users_id_seq w + 1 in
      let w := set_seq id w in
      match u, e with
      | Some u, Some e =>
          if bool_decide (is_Some (txn w !! id)) || conflict (txn w) id u e
          then (Raise IntegrityError, w)
          else (Return id, set_txn (<[id := (u, e)]> (txn w)) w)
      | _, _ => (Raise IntegrityError, w)
      end
  | _, _ => (Raise DataError, w)
  end.

(** [SELECT id, username, email FROM users] followed by [cur.fetchall()]. *)
Definition execute_select_all : M (list (Z * (string * string))) := fun w =>
  let w := record (EExecute SELECT_all) w in
  (Return (map_to_list (txn w)), w).

(** [SELECT id, username, email FROM users WHERE id = %s] followed by
    [cur.fetchone()]. *)
Definition execute_select_one (user_id : Z) : M (option (Z * (string * string))) := fun w =>
  let w := record (EExecute SELECT_one) w in
  (Return (pair user_id <$> txn w !! user_id), w).

(** [UPDATE users SET username = %s, email = %s WHERE id = %s RETURNING id];
    the result is [cur.rowcount]. *)
Definition execute_update (username email : option string) (user_id : Z) : M Z := fun w =>
  let w := record (EExecute UPDATE) w in
  if unquotable username || unquotable email then (Raise ValueError, w) else
  match varchar_param 80 username, varchar_param 120 email with
  | Some u, Some e =>
      match txn w !! user_id with
      | None => (Return 0, w)
      | Some _ =>
          match u, e with
          | Some u, Some e =>
              if conflict (txn w) user_id u e
              then (Raise IntegrityError, w)
              else (Return 1, set_txn (<[user_id := (u, e)]> (txn w)) w)
          | _, _ => (Raise IntegrityError, w)
          end
      end
  | _, _ => (Raise DataError, w)
  end.

(** [DELETE FROM users WHERE id = %s]; the result is [cur.rowcount]. *)
Definition execute_delete (user_id : Z) : M Z := fun w =>
  let w := record (EExecute DELETE) w in
  match txn w !! user_id with
  | None => (Return 0, w)
  | Some _ => (Return 1, set_txn (delete user_id (txn w)) w)
  end.

Definition commit : M unit := fun w =>
  let w := record ECommit w in
  (Return tt, set_users (txn w) w).

Definition rollback : M unit := fun w =>
  let w := record ERollback w in
  (Return tt, set_txn (users w) w).

(** [conn.close()]: whatever was not committed is lost. *)
Definition close : M unit := fun w =>
  let w := record EClose w in
  (Return tt, set_txn (users w) w).

(** ** The cache: one Redis key

    The handlers store [str(users)] and read it back with [eval]; on a list
    of dictionaries of integers and strings the two are inverse, and the
    text is never empty, so the model keeps the list itself and a present
    value is truthy. *)

(** What [GET all_users] answers at the current time. *)
Definition snapshot (w : World) : option (list User) :=
  match all_users w with
  | Some (v, expiry) => if bool_decide (now w < expiry) then Some v else None
  | None => None
  end.

Definition redis_get : M (option (list User)) := fun w =>
  let w := record ERedisGet w in
  if redis_alive w then (Return (snapshot w), w)
  else (Raise RedisConnectionError, w).

Definition redis_set (v : list User) (ex : Z) : M unit := fun w =>
  let w := record ERedisSet w in
  if redis_alive w then (Return tt, set_all_users (Some (v, now w + ex)) w)
  else (Raise RedisConnectionError, w).

Definition redis_delete : M unit := fun w =>
  let w := record ERedisDelete w in
  if redis_alive w then (Return tt, set_all_users None w)
  else (Raise RedisConnectionError, w).

(** [if redis_client: ...] *)
Definition if_redis_client (m : M unit) : M unit := fun w =>
  if redis_client w then m w else (Return tt, w).

(** ** The handlers *)

(** POST /users *)
Definition create_user (data : Json) : M Response :=
  let username := get_username data in
  let email := get_email data in
  if negb (truthy username) || negb (truthy email) then
    ret (jsonify (JError "Missing username or email") 400)
  else
    conn <- get_db_connection ;;
    match conn with
    | None => ret (jsonify (JError "Database unavailable") 503)
    | Some _ =>
        try_finally
          (try_except
             (user_id <- execute_insert username email ;;
              commit ;;;
              ret (jsonify (JUser user_id username email) 201))
             (fun exc =>
                match exc with
                | IntegrityError =>
                    rollback ;;;
                    ret (jsonify (JError "Username or Email already exists") 409)
                | e =>
                    rollback ;;;
                    ret (jsonify (JException e) 500)
                end))
          close
    end.

(** GET /users *)
Definition list_users : M Response :=
  cached_users <-
    (fun w => if redis_client w
              then redis_get w
              else (Return None, w)) ;;
  match cached_users with
  | Some cached => ret (jsonify (JUsers cached) 200)
  | None =>
      conn <- get_db_connection ;;
      match conn with
      | None => ret (jsonify (JError "Database unavailable") 503)
      | Some _ =>
          try_finally
            (try_except
               (rows <- execute_select_all ;;
                let users := row <$> rows in
                if_redis_client (redis_set users 30) ;;;
                ret (jsonify (JUsers users) 200))
               (fun e => ret (jsonify (JException e) 500)))
            close
      end
  end.

(** GET /users/<id> *)
Definition get_user (user_id : Z) : M Response :=
  conn <- get_db_connection ;;
  match conn with
  | None => ret (jsonify (JError "Database unavailable") 503)
  | Some _ =>
      try_finally
        (try_except
           (user <- execute_select_one user_id ;;
            match user with
            | Some user =>
                ret (jsonify (JUser user.1 (Some user.2.1) (Some user.2.2)) 200)
            | None => ret (jsonify (JError "User not found") 404)
            end)
           (fun e => ret (jsonify (JException e) 500)))
        close
  end.

(** PUT /users/<id> *)
Definition update_user (user_id : Z) (data : Json) : M Response :=
  let username := get_username data in
  let email := get_email data in
  if negb (truthy username) && negb (truthy email) then
    ret (jsonify (JError "No data provided for update") 400)
  else
    conn <- get_db_connection ;;
    match conn with
    | None => ret (jsonify (JError "Database unavailable") 503)
    | Some _ =>
        try_finally
          (try_except
             (rowcount <- execute_update username email user_id ;;
              if bool_decide (rowcount = 0) then
                rollback ;;;
                ret (jsonify (JError "User not found") 404)
              else
                commit ;;;
                if_redis_client redis_delete ;;;
                ret (jsonify (JMessage user_id "User updated") 200))
             (fun exc =>
                match exc with
                | IntegrityError =>
                    rollback ;;;
                    ret (jsonify (JError "Username or Email already exists") 409)
                | e =>
                    rollback ;;;
                    ret (jsonify (JException e) 500)
                end))
          close
    end.

(** DELETE /users/<id> *)
Definition delete_user (user_id : Z) : M Response :=
  conn <- get_db_connection ;;
  match conn with
  | None => ret (jsonify (JError "Database unavailable") 503)
  | Some _ =>
      try_finally
        (try_except
           (rowcount <- execute_delete user_id ;;
            if bool_decide (rowcount = 0) then
              rollback ;;;
              ret (jsonify (JError "User not found") 404)
            else
              commit ;;;
              if_redis_client redis_delete ;;;
              ret (jsonify (JMessage user_id "User deleted") 200))
           (fun e =>
              rollback ;;;
              ret (jsonify (JException e) 500)))
        close
  end.

(** ** Flask *)

Inductive Request :=
| POST_users (data : Json)
| GET_users
| GET_user (user_id : Z)
| PUT_user (user_id : Z) (data : Json)
| DELETE_user (user_id : Z).

Definition route (r : Request) : M Response :=
  match r with
  | POST_users data => create_user data
  | GET_users => list_users
  | GET_user user_id => get_user user_id
  | PUT_user user_id data => update_user user_id data
  | DELETE_user user_id => delete_user user_id
  end.

(** An exception that leaves a view function becomes Flask's 500 page. *)
Definition serve (r : Request) (w : World) : Response * World :=
  match route r w with
  | (Return resp, w') => (resp, w')
  | (Raise _, w') => (jsonify InternalServerError 500, w')
  end.

(** The service just after start-up on an empty database at time 0. *)
Definition boot (db redis : bool) : World :=
  mkWorld db ∅ 0 ∅ redis redis None 0 [].

Definition alice : Json := mkJson (Some "alice") (Some "a@x.com").
Definition bob : Json := mkJson (Some "bob") (Some "b@x.com").

(** What [request.get_json()] finds in the body of a create or an update.
    The fields of an object are read as strings or null ([Json]). *)
Inductive Payload :=
| NotJson                (* the content type is not JSON *)
| Malformed              (* JSON content type, a body that does not parse *)
| NotObject              (* a JSON value with no [get]: list, number, null *)
| Object (data : Json).

(** An answer of a view function, or one of Flask's own error pages. *)
Inductive Answer := Handled (r : Response) | Page (code : Z).

Definition answer_status (a : Answer) : Z :=
  match a with
  | Handled r => status r
  | Page code => code
  end.

(** [data = request.get_json()] and the first [data.get]: Flask answers 415
    or 400 itself when there is no JSON to read, and [data.get] raises on a
    value that is no object. *)
Definition with_json (p : Payload) (view : Json -> Request) (w : World)
  : Answer * World :=
  match p with
  | NotJson => (Page 415, w)
  | Malformed => (Page 400, w)
  | NotObject => (Page 500, w)
  | Object data => let '(r, w') := serve (view data) w in (Handled r, w')
  end.

(** The calls a request makes: what it adds to the log. *)
Definition events_of (r : Request) (w : World) : list Event :=
  drop (length (log w)) (log (serve r w).2).

(** ** The environment between requests *)

(** The Redis server stops (or resumes) answering while the service runs. *)
Definition set_redis_alive (b : bool) w :=
  mkWorld (db_alive w) (users w) (users_id_seq w) (txn w) (redis_client w)
          b (all_users w) (now w) (log w).

(** PostgreSQL stops (or resumes) accepting connections. *)
Definition set_db_alive (b : bool) w :=
  mkWorld b (users w) (users_id_seq w) (txn w) (redis_client w)
          (redis_alive w) (all_users w) (now w) (log w).

Inductive Step :=
| Serve (r : Request)
| Wait (d : Z)
| Redis (alive : bool)
| Postgres (alive : bool).

Definition step (w : World) (s : Step) : World :=
  match s with
  | Serve r => (serve r w).2
  | Wait d => tick d w
  | Redis alive => set_redis_alive alive w
  | Postgres alive => set_db_alive alive w
  end.

(** The world after a history of steps, starting from [boot]. *)
Definition history (db redis : bool) (l : list Step) : World :=
  fold_left step l (boot db redis).

(** ** Concrete worlds *)

(** The service after one list request on the empty table, and after
    [alice] has then been created. *)
Definition listed : World := (serve GET_users (boot true true)).2.
Definition with_alice : World := (serve (POST_users alice) listed).2.

(** The same service once Redis has stopped answering. *)
Definition cache_down : World := set_redis_alive false with_alice.

(** A service started while Redis was out of reach ([redis_client = None]),
    holding the row of [alice]. *)
Definition no_cache : World := (serve (POST_users alice) (boot true false)).2.

(** A service with the cache in reach and empty, holding the row of
    [alice]. *)
Definition alice_only : World := (serve (POST_users alice) (boot true true)).2.

(** [alice_only] after a list request: the cache holds her row. *)
Definition listed_alice : World := (serve GET_users alice_only).2.

(** A username that holds a NUL character. *)
Definition nul_name : string := String Ascii.zero "bob".

(** The same service holding the rows of [alice] and [bob]. *)
Definition with_both : World := (serve (POST_users bob) with_alice).2.

(** An e-mail that holds a NUL character. *)
Definition nul_mail : string := String Ascii.zero "@x.com".

(** A username of 80 characters followed by one space. *)
Definition padded_name : string :=
  String.string_of_list_ascii
    (repeat (Ascii.ascii_of_nat 120) 80 ++ [Ascii.ascii_of_nat 32]).

(** Its first 80 characters. *)
Definition trimmed_name : string :=
  String.string_of_list_ascii (repeat (Ascii.ascii_of_nat 120) 80).

(** ** Invariants of the table *)

(** Every id was handed out by the sequence, no two rows share a username
    or an email, and no stored value holds a NUL character. *)
Definition store_ok (t : gmap Z (string * string)) (n : Z) : Prop :=
  map_Forall (λ id _, id ≤ n) t ∧
  (∀ i j r s, t !! i = Some r -> t !! j = Some s ->
              r.1 = s.1 ∨ r.2 = s.2 -> i = j) ∧
  map_Forall (λ _ r, has_nul r.1 = false ∧ has_nul r.2 = false) t.

Definition well_formed (w : World) : Prop :=
  store_ok (users w) (users_id_seq w).

(** ** The health check *)

(** The body of the health answer:
    [{"status": .., "database": .., "cache": ..}]. *)
Record Health := mkHealth {
  h_status : string;
  h_database : string;
  h_cache : string
}.

Record HealthResponse := jsonify_health { health : Health; health_code : Z }.

(** [redis_client.ping()]: answered [True] by a server in reach, an
    exception otherwise. PING reads and writes no key and is not entered in
    the log. *)
Definition redis_ping : M bool := fun w =>
  if redis_alive w then (Return true, w)
  else (Raise RedisConnectionError, w).

(** GET /health *)
Definition health_check : M HealthResponse :=
  db_status <-
    try_except
      (conn <- get_db_connection ;;
       match conn with
       | None => ret "ERROR - DB connection failed"
       | Some _ => close ;;; ret "OK"
       end)
      (fun _ => ret "ERROR - DB exception") ;;
  redis_status <-
    try_except
      (failed <-                  (* not redis_client or not redis_client.ping() *)
         (fun w => if negb (redis_client w) then (Return true, w)
                   else (pong <- redis_ping ;; ret (negb pong)) w) ;;
       if (failed : bool) then ret "ERROR - Redis connection failed"
       else ret "OK")
      (fun _ => ret "ERROR - Redis exception") ;;
  let status_code :=
    if String.eqb db_status "OK" && String.eqb redis_status "OK"
    then 200 else 503 in
  ret (jsonify_health (mkHealth "UP" db_status redis_status) status_code).

(** The health answer, or [None] for Flask's 500 page. *)
Definition serve_health (w : World) : option HealthResponse * World :=
  match health_check w with
  | (Return resp, w') => (Some resp, w')
  | (Raise _, w') => (None, w')
  end.

(** ** Predicates on requests, logs and histories *)

Definition is_connect (e : Event) : bool :=
  match e with EConnect => true | _ => false end.

Definition is_close (e : Event) : bool :=
  match e with EClose => true | _ => false end.

(** Time does not run backwards. *)
Definition patient (s : Step) : Prop :=
  match s with
  | Wait d => 0 ≤ d
  | _ => True
  end.

(** A step that is neither a create nor a change in Redis' reach. *)
Definition calm (s : Step) : Prop :=
  match s with
  | Serve (POST_users _) => False
  | Redis _ => False
  | _ => True
  end.

(** What a live cache entry holds is what the store holds. *)
Definition coherent (w : World) : Prop :=
  ∀ v expiry, all_users w = Some (v, expiry) ->
              v = row <$> map_to_list (users w).

(** A cache entry expires at most 30 seconds from now. *)
Definition short_lived (w : World) : Prop :=
  ∀ v expiry, all_users w = Some (v, expiry) -> expiry ≤ now w + 30.

(** Every stored value fits its column. *)
Definition fits_columns (w : World) : Prop :=
  map_Forall (λ _ r, (String.length r.1 ≤ 80)%nat ∧
                     (String.length r.2 ≤ 120)%nat) (users w).

(** A username one character too long for its column. *)
Definition long_name : string :=
  String.string_of_list_ascii (repeat (Ascii.ascii_of_nat 120) 81).

(** The answers that blame the request or the store's reach. *)
Definition refused (code : Z) : bool :=
  bool_decide (code = 400 ∨ code = 404 ∨ code = 409 ∨ code = 503).

(** * Properties *)

(** Unfold a request down to the calls on the store and the cache. *)
Ltac run :=
  unfold serve, route, create_user, list_users, get_user, update_user,
    delete_user, try_finally, try_except, bind, ret, if_redis_client,
    get_db_connection, execute_insert, execute_select_all, execute_select_one,
    execute_update, execute_delete, commit, rollback, close,
    redis_get, redis_set, redis_delete.

Ltac tidy := simpl; rewrite <- ?app_assoc; simpl.

(** Split on the innermost test the goal is stuck on. *)
Ltac innermost :=
  match goal with
  | |- context [match ?x with _ => _ end] =>
      lazymatch x with
      | context [match _ with _ => _ end] => fail
      | _ => destruct x eqn:?
      end
  end.

Ltac crunch := repeat (simpl in *; simplify_eq; innermost).

(** An event that is none of the events of a given list. *)
Ltac absent H :=
  exfalso;
  repeat (apply elem_of_cons in H as [H|H]; [discriminate H|]);
  by apply elem_of_nil in H.

(** An event that is one of them. *)
Ltac present := repeat first [apply list_elem_of_here | apply list_elem_of_further].

(** ** Strings, rows and events *)

Lemma varchar_fits n s : (String.length s ≤ n)%nat -> varchar n s = Some s.
Proof. intros H. unfold varchar. now rewrite decide_True. Qed.

Lemma varchar_param_fits n s :
  (String.length s ≤ n)%nat -> varchar_param n (Some s) = Some (Some s).
Proof. intros H. simpl. now rewrite varchar_fits. Qed.

Lemma truthy_Some s : s ≠ EmptyString -> truthy (Some s) = true.
Proof. now destruct s. Qed.

(** The users a list request makes of the rows are the rows. *)
Lemma rows_elem (t : gmap Z (string * string)) id u e :
  mkUser id u e ∈ row <$> map_to_list t ↔ t !! id = Some (u, e).
Proof.
  rewrite list_elem_of_fmap. split.
  - intros ([k [u' e']] & Heq & Hin). unfold row in Heq. simpl in Heq.
    injection Heq as -> -> ->. by apply elem_of_map_to_list.
  - intros H. exists (id, (u, e)). split; [done|].
    by apply elem_of_map_to_list.
Qed.

Lemma rows_length (t : gmap Z (string * string)) :
  length (row <$> map_to_list t) = size t.
Proof. rewrite length_fmap. apply length_map_to_list. Qed.

(** What a request adds to a log that ends in what it added. *)
Lemma events_of_app r w l :
  log (serve r w).2 = log w ++ l -> events_of r w = l.
Proof. unfold events_of. intros ->. apply drop_app_length. Qed.

(** ** Rejected requests *)

(** C7: an update in which neither username nor email is provided is
    answered 400 and leaves the world exactly as it was: no connection is
    opened and no statement is sent. *)
Theorem update_user_no_data user_id data w :
  truthy (get_username data) = false ->
  truthy (get_email data) = false ->
  serve (PUT_user user_id data) w
  = (jsonify (JError "No data provided for update") 400, w).
Proof.
  intros Hu He. run. now rewrite Hu, He.
Qed.

Lemma update_user_no_data_witness :
  truthy (get_username (mkJson None (Some EmptyString))) = false ∧
  truthy (get_email (mkJson None (Some EmptyString))) = false ∧
  serve (PUT_user 1 (mkJson None (Some EmptyString))) with_alice
  = (jsonify (JError "No data provided for update") 400, with_alice).
Proof.
  split; [reflexivity|]. split; [reflexivity|].
  apply (update_user_no_data 1 (mkJson None (Some EmptyString)) with_alice); reflexivity.
Defined.

(** C5: deleting an id that has no row is answered 404; the cached list is
    left as it is and no call reaches the cache. *)
Theorem delete_user_missing user_id w :
  db_alive w = true ->
  users w !! user_id = None ->
  (serve (DELETE_user user_id) w).1 = jsonify (JError "User not found") 404 ∧
  all_users (serve (DELETE_user user_id) w).2 = all_users w ∧
  users (serve (DELETE_user user_id) w).2 = users w ∧
  log (serve (DELETE_user user_id) w).2
  = log w ++ [EConnect; EExecute DELETE; ERollback; EClose].
Proof.
  intros Hdb Hid. run. destruct w; simpl in *.
  rewrite Hdb; simpl. rewrite Hid. tidy. done.
Qed.

Lemma delete_user_missing_witness :
  db_alive with_alice = true ∧
  users with_alice !! 7 = None ∧
  (serve (DELETE_user 7) with_alice).1 = jsonify (JError "User not found") 404 ∧
  all_users (serve (DELETE_user 7) with_alice).2 = all_users with_alice.
Proof.
  split; [reflexivity|]. split; [reflexivity|].
  destruct (delete_user_missing 7 with_alice) as (H1 & H2 & _);
    [reflexivity | reflexivity | ].
  exact (conj H1 H2).
Defined.

(** ** The list handler *)

(** C2, as stated, fails: not every list request that finds no live
    snapshot writes one. On a service that holds no cache client the store
    is read and its rows are answered, but nothing is cached; with
    PostgreSQL out of reach the request is answered 503. *)
Lemma list_users_nothing_cached :
  snapshot no_cache = None ∧
  (serve GET_users no_cache).1
  = jsonify (JUsers [mkUser 1 "alice" "a@x.com"]) 200 ∧
  all_users (serve GET_users no_cache).2 = None ∧
  events_of GET_users no_cache = [EConnect; EExecute SELECT_all; EClose] ∧
  snapshot (set_db_alive false alice_only) = None ∧
  (serve GET_users (set_db_alive false alice_only)).1
  = jsonify (JError "Database unavailable") 503.
Proof. vm_compute. done. Qed.

(** C2, amended: on a service that holds a cache client whose server
    answers, a list request that finds a live snapshot answers with it and
    makes no call to the store; one that finds none, with the store in
    reach, reads the rows of the store, answers with one user per row and
    no other, and writes that same list to the cache with an expiry 30
    seconds ahead. *)
Theorem list_users_read_through w :
  redis_client w = true ->
  redis_alive w = true ->
  match snapshot w with
  | Some cached =>
      serve GET_users w = (jsonify (JUsers cached) 200, record ERedisGet w)
  | None =>
      db_alive w = true ->
      ∃ fresh,
        (∀ id u e, mkUser id u e ∈ fresh ↔ users w !! id = Some (u, e)) ∧
        length fresh = size (users w) ∧
        (serve GET_users w).1 = jsonify (JUsers fresh) 200 ∧
        all_users (serve GET_users w).2 = Some (fresh, now w + 30) ∧
        snapshot (serve GET_users w).2 = Some fresh ∧
        users (serve GET_users w).2 = users w ∧
        log (serve GET_users w).2
        = log w ++ [ERedisGet; EConnect; EExecute SELECT_all; ERedisSet; EClose]
  end.
Proof.
  intros Hc Ha. run. rewrite Hc. simpl. rewrite Ha.
  change (snapshot (record ERedisGet w)) with (snapshot w).
  destruct (snapshot w) as [cached|] eqn:Hs; [done|].
  intros Hdb. simpl. rewrite Hdb. simpl. rewrite Hc. simpl. rewrite Ha. tidy.
  exists (row <$> map_to_list (users w)).
  split; [intros id u e; apply rows_elem|].
  split; [apply rows_length|].
  repeat split. unfold snapshot; simpl.
  now rewrite bool_decide_eq_true_2 by lia.
Qed.

Lemma list_users_read_through_witness :
  (snapshot listed_alice = Some [mkUser 1 "alice" "a@x.com"] ∧
   serve GET_users listed_alice
   = (jsonify (JUsers [mkUser 1 "alice" "a@x.com"]) 200,
      record ERedisGet listed_alice)) ∧
  (snapshot (tick 30 with_alice) = None ∧
   ∃ fresh,
     mkUser 1 "alice" "a@x.com" ∈ fresh ∧
     length fresh = 1%nat ∧
     (serve GET_users (tick 30 with_alice)).1 = jsonify (JUsers fresh) 200 ∧
     all_users (serve GET_users (tick 30 with_alice)).2 = Some (fresh, 60)).
Proof.
  split; (split; [reflexivity|]).
  - apply (list_users_read_through listed_alice); reflexivity.
  - destruct (list_users_read_through (tick 30 with_alice) eq_refl eq_refl
                eq_refl) as (fresh & Hin & Hlen & Hresp & Hcache & _).
    exists fresh. split; [apply Hin; reflexivity|].
    split; [exact Hlen|]. split; [exact Hresp|exact Hcache].
Defined.




(** ** Mutations and the cache *)

(** An update the store accepts, whatever the cache does afterwards. *)
Lemma update_user_accepted user_id data u e w :
  db_alive w = true ->
  is_Some (users w !! user_id) ->
  get_username data = Some u ->
  get_email data = Some e ->
  u ≠ EmptyString ∨ e ≠ EmptyString ->
  has_nul u = false ->
  has_nul e = false ->
  (String.length u ≤ 80)%nat ->
  (String.length e ≤ 120)%nat ->
  conflict (users w) user_id u e = false ->
  (serve (PUT_user user_id data) w).1
  = (if redis_client w && negb (redis_alive w)
     then jsonify (JException RedisConnectionError) 500
     else jsonify (JMessage user_id "User updated") 200) ∧
  users (serve (PUT_user user_id data) w).2 = <[user_id := (u, e)]> (users w) ∧
  all_users (serve (PUT_user user_id data) w).2
  = (if redis_client w && redis_alive w then None else all_users w) ∧
  log (serve (PUT_user user_id data) w).2
  = log w ++ [EConnect; EExecute UPDATE; ECommit]
          ++ (if redis_client w
              then if redis_alive w then [ERedisDelete]
                   else [ERedisDelete; ERollback]
              else [])
          ++ [EClose].
Proof.
  intros Hdb [r Hr] Hu He Hne Hnu Hnl Hlu Hle Hc. run.
  rewrite Hu, He.
  assert (negb (truthy (Some u)) && negb (truthy (Some e)) = false) as ->.
  { destruct Hne as [H|H]; apply truthy_Some in H; rewrite H; simpl; [done|].
    apply andb_false_r. }
  simpl. rewrite Hdb. simpl. rewrite Hnu, Hnl. simpl.
  rewrite !varchar_fits by done. simpl. rewrite Hr. simpl. rewrite Hc. simpl.
  destruct (redis_client w), (redis_alive w); tidy; done.
Qed.

(** C3, as stated, fails: Redis has stopped answering, the update (or the
    delete) of row 1 is committed, [redis_client.delete] raises, the
    exception is caught by [except Exception], and the caller is answered
    500 for a write the store has kept. *)
Lemma mutation_cache_down :
  redis_client cache_down = true ∧ redis_alive cache_down = false ∧
  users cache_down !! 1 = Some ("alice", "a@x.com") ∧
  (serve (PUT_user 1 bob) cache_down).1
  = jsonify (JException RedisConnectionError) 500 ∧
  users (serve (PUT_user 1 bob) cache_down).2 !! 1 = Some ("bob", "b@x.com") ∧
  (serve (DELETE_user 1) cache_down).1
  = jsonify (JException RedisConnectionError) 500 ∧
  users (serve (DELETE_user 1) cache_down).2 !! 1 = None.
Proof. vm_compute. done. Qed.

(** C3, amended: a committed update or delete is never undone, whatever the
    cache does: whenever the handler has committed, the store holds the
    written row (or no longer holds the deleted one) when the handler
    returns. When the service holds no cache client (the cache could not be
    reached at start-up) the handler makes no cache call and answers 200. *)
Theorem mutation_without_cache_client user_id w :
  (∀ data,
     ECommit ∈ events_of (PUT_user user_id data) w ->
     ∃ u e,
       varchar_param 80 (get_username data) = Some (Some u) ∧
       varchar_param 120 (get_email data) = Some (Some e) ∧
       is_Some (users w !! user_id) ∧
       users (serve (PUT_user user_id data) w).2
       = <[user_id := (u, e)]> (users w) ∧
       (redis_client w = false ->
        (serve (PUT_user user_id data) w).1
        = jsonify (JMessage user_id "User updated") 200 ∧
        events_of (PUT_user user_id data) w
        = [EConnect; EExecute UPDATE; ECommit; EClose])) ∧
  (ECommit ∈ events_of (DELETE_user user_id) w ->
   is_Some (users w !! user_id) ∧
   users (serve (DELETE_user user_id) w).2 = delete user_id (users w) ∧
   (redis_client w = false ->
    (serve (DELETE_user user_id) w).1
    = jsonify (JMessage user_id "User deleted") 200 ∧
    events_of (DELETE_user user_id) w
    = [EConnect; EExecute DELETE; ECommit; EClose])).
Proof.
  unfold events_of. destruct w as [db t n tx rc ra c nw lg].
  split; [intros data|]; run; crunch; simpl.
  all: rewrite <- ?app_assoc, ?drop_app_length, ?drop_all; simpl.
  all: intros Hin; try (absent Hin).
  all: repeat first [eexists | split]; eauto; try done.
Qed.

Lemma mutation_without_cache_client_witness :
  ECommit ∈ events_of (PUT_user 1 bob) no_cache ∧
  users (serve (PUT_user 1 bob) no_cache).2
  = <[1 := ("bob", "b@x.com")]> (users no_cache) ∧
  (serve (PUT_user 1 bob) no_cache).1 = jsonify (JMessage 1 "User updated") 200 ∧
  ECommit ∈ events_of (DELETE_user 1) no_cache ∧
  users (serve (DELETE_user 1) no_cache).2 = delete 1 (users no_cache) ∧
  (serve (DELETE_user 1) no_cache).1 = jsonify (JMessage 1 "User deleted") 200.
Proof.
  assert (Hu : ECommit ∈ events_of (PUT_user 1 bob) no_cache).
  { vm_compute. present. }
  assert (Hd : ECommit ∈ events_of (DELETE_user 1) no_cache).
  { vm_compute. present. }
  destruct (mutation_without_cache_client 1 no_cache) as [Hupd Hdel].
  destruct (Hupd bob Hu) as (u & e & Hvu & Hve & _ & Hrow & Hok).
  destruct (Hok eq_refl) as [Hresp _].
  destruct (Hdel Hd) as (_ & Hgone & Hok').
  destruct (Hok' eq_refl) as [Hresp' _].
  simpl in Hvu, Hve. injection Hvu as <-. injection Hve as <-.
  repeat split; assumption.
Defined.

(** ** Creation *)

Lemma conflict_true t id u e k r :
  t !! k = Some r -> k ≠ id -> r.1 = u ∨ r.2 = e -> conflict t id u e = true.
Proof.
  intros Hk Hne Hr. apply bool_decide_eq_true_2. exists k, r. done.
Qed.

Lemma conflict_false t id u e :
  map_Forall (λ _ r, r.1 ≠ u ∧ r.2 ≠ e) t -> conflict t id u e = false.
Proof.
  intros Hall. apply bool_decide_eq_false_2. intros (k & r & Hk & _ & Hr).
  destruct (Hall k r Hk) as [Hu He]. destruct Hr; contradiction.
Qed.

(** C4, as stated, fails: a create with the username of [alice] and an
    e-mail that holds a NUL character is stopped by psycopg2 before the
    store sees it, and is answered 500, not 409; so is one with her
    username and an e-mail of 121 characters. *)
Lemma duplicate_create_not_409 :
  users with_alice !! 1 = Some ("alice", "a@x.com") ∧
  (serve (POST_users (mkJson (Some "alice") (Some nul_mail))) with_alice).1
  = jsonify (JException ValueError) 500 ∧
  (serve (POST_users (mkJson (Some "alice") (Some (long_name +:+ long_name))))
         with_alice).1
  = jsonify (JException DataError) 500.
Proof. vm_compute. done. Qed.

(** C4, amended: a create whose username and email are non-empty, hold no
    NUL character and fit their columns, sent while the sequence has a value
    left, and whose username or email is already held by a row, is answered
    409 and the rows of the store are what they were. *)
Theorem create_user_duplicate data u e id0 r w :
  db_alive w = true ->
  users_id_seq w < seq_max ->
  get_username data = Some u ->
  get_email data = Some e ->
  u ≠ EmptyString -> e ≠ EmptyString ->
  has_nul u = false -> has_nul e = false ->
  (String.length u ≤ 80)%nat ->
  (String.length e ≤ 120)%nat ->
  users w !! id0 = Some r ->
  r.1 = u ∨ r.2 = e ->
  (serve (POST_users data) w).1
  = jsonify (JError "Username or Email already exists") 409 ∧
  users (serve (POST_users data) w).2 = users w ∧
  log (serve (POST_users data) w).2
  = log w ++ [EConnect; EExecute INSERT; ERollback; EClose].
Proof.
  intros Hdb Hmax Hu He Hnu Hne Hzu Hze Hlu Hle Hid Hr. run.
  rewrite Hu, He, !truthy_Some by done. simpl. rewrite Hdb. simpl.
  rewrite Hzu, Hze. simpl. rewrite !varchar_fits by done. simpl.
  rewrite bool_decide_eq_false_2 by lia.
  assert (bool_decide (is_Some (users w !! (users_id_seq w + 1)))
          || conflict (users w) (users_id_seq w + 1) u e = true) as ->.
  { destruct (decide (id0 = users_id_seq w + 1)) as [<-|Hne'].
    - rewrite bool_decide_eq_true_2 by eauto. done.
    - rewrite (conflict_true _ _ _ _ id0 r) by done. apply orb_true_r. }
  tidy. done.
Qed.

Lemma create_user_duplicate_witness :
  users with_alice !! 1 = Some ("alice", "a@x.com") ∧
  (serve (POST_users (mkJson (Some "alice") (Some "b@x.com"))) with_alice).1
  = jsonify (JError "Username or Email already exists") 409 ∧
  users (serve (POST_users (mkJson (Some "alice") (Some "b@x.com"))) with_alice).2
  = users with_alice.
Proof.
  split; [reflexivity|].
  destruct (create_user_duplicate (mkJson (Some "alice") (Some "b@x.com"))
              "alice" "b@x.com" 1 ("alice", "a@x.com") with_alice)
    as (H1 & H2 & _);
    [reflexivity | reflexivity | reflexivity | reflexivity | done | done
    | reflexivity | reflexivity | simpl; lia | simpl; lia | reflexivity
    | by left | ].
  exact (conj H1 H2).
Defined.

(** A create the store accepts. *)
Lemma create_user_accepted data u e w :
  db_alive w = true ->
  users_id_seq w < seq_max ->
  get_username data = Some u ->
  get_email data = Some e ->
  u ≠ EmptyString -> e ≠ EmptyString ->
  has_nul u = false -> has_nul e = false ->
  (String.length u ≤ 80)%nat ->
  (String.length e ≤ 120)%nat ->
  users w !! (users_id_seq w + 1) = None ->
  conflict (users w) (users_id_seq w + 1) u e = false ->
  (serve (POST_users data) w).1
  = jsonify (JUser (users_id_seq w + 1) (Some u) (Some e)) 201 ∧
  users (serve (POST_users data) w).2
  = <[users_id_seq w + 1 := (u, e)]> (users w) ∧
  users_id_seq (serve (POST_users data) w).2 = users_id_seq w + 1 ∧
  db_alive (serve (POST_users data) w).2 = true ∧
  log (serve (POST_users data) w).2
  = log w ++ [EConnect; EExecute INSERT; ECommit; EClose].
Proof.
  intros Hdb Hmax Hu He Hnu Hne Hzu Hze Hlu Hle Hid Hc. run.
  rewrite Hu, He, !truthy_Some by done. simpl. rewrite Hdb. simpl.
  rewrite Hzu, Hze. simpl. rewrite !varchar_fits by done. simpl.
  rewrite bool_decide_eq_false_2 by lia. rewrite Hid, Hc.
  rewrite bool_decide_eq_false_2 by (intros [? ?]; done). tidy. done.
Qed.

(** What get-by-id answers when the store is in reach. *)
Lemma get_user_found user_id r w :
  db_alive w = true ->
  users w !! user_id = Some r ->
  (serve (GET_user user_id) w).1
  = jsonify (JUser user_id (Some r.1) (Some r.2)) 200.
Proof.
  intros Hdb Hr. run. simpl. rewrite Hdb. simpl. rewrite Hr. done.
Qed.

(** C8, as stated, fails: a username of 80 characters followed by a space
    passes the handler's test, the create is answered 201 with that
    username, and the column keeps its first 80 characters only: get-by-id
    with the new id answers with another username than the one created. *)
Lemma padded_create_then_get :
  (serve (POST_users (mkJson (Some padded_name) (Some "p@x.com"))) with_alice).1
  = jsonify (JUser 2 (Some padded_name) (Some "p@x.com")) 201 ∧
  (serve (GET_user 2)
         (serve (POST_users (mkJson (Some padded_name) (Some "p@x.com")))
                with_alice).2).1
  = jsonify (JUser 2 (Some trimmed_name) (Some "p@x.com")) 200 ∧
  trimmed_name ≠ padded_name.
Proof.
  split; [by vm_compute|]. split; [by vm_compute|].
  intros H. apply (f_equal String.length) in H. vm_compute in H.
  discriminate H.
Qed.

(** C8, amended: for a username and an email that are non-empty, hold no
    NUL character, have at most 80 and 120 characters and are held by no
    row, on a table whose ids all come from the sequence and while the
    sequence has a value left, create is answered 201 with the next value
    of the sequence, an id no row had, and get-by-id with that id then
    answers with exactly that username and email. *)
Theorem create_then_get data u e w :
  db_alive w = true ->
  users_id_seq w < seq_max ->
  get_username data = Some u ->
  get_email data = Some e ->
  u ≠ EmptyString -> e ≠ EmptyString ->
  has_nul u = false -> has_nul e = false ->
  (String.length u ≤ 80)%nat ->
  (String.length e ≤ 120)%nat ->
  map_Forall (λ id _, id ≤ users_id_seq w) (users w) ->
  map_Forall (λ _ r, r.1 ≠ u ∧ r.2 ≠ e) (users w) ->
  let id := users_id_seq w + 1 in
  (serve (POST_users data) w).1 = jsonify (JUser id (Some u) (Some e)) 201 ∧
  users w !! id = None ∧
  (serve (GET_user id) (serve (POST_users data) w).2).1
  = jsonify (JUser id (Some u) (Some e)) 200.
Proof.
  intros Hdb Hmax Hu He Hnu Hne Hzu Hze Hlu Hle Hseq Hdup id.
  assert (Hfresh : users w !! id = None).
  { destruct (users w !! id) as [r|] eqn:Hr; [|done].
    apply Hseq in Hr. simpl in Hr. unfold id in Hr. lia. }
  destruct (create_user_accepted data u e w) as (H1 & H2 & _ & H4 & _);
    try done.
  { by apply conflict_false. }
  split; [done|]. split; [done|].
  apply (get_user_found id (u, e)); [done|].
  rewrite H2. apply lookup_insert_eq.
Qed.

Lemma create_then_get_witness :
  (serve (POST_users bob) with_alice).1
  = jsonify (JUser 2 (Some "bob") (Some "b@x.com")) 201 ∧
  users with_alice !! 2 = None ∧
  (serve (GET_user 2) (serve (POST_users bob) with_alice).2).1
  = jsonify (JUser 2 (Some "bob") (Some "b@x.com")) 200.
Proof.
  apply (create_then_get bob "bob" "b@x.com" with_alice);
    try reflexivity; try done; try (simpl; lia).
  - apply (bool_decide_unpack _). vm_compute. exact I.
  - apply (bool_decide_unpack _). vm_compute. exact I.
Defined.

(** ** Updates *)

(** C9: an update answered 200 has replaced the username and the email of
    the row with that id, which existed before and keeps its id; the set of
    ids, every other row and the sequence are as they were. *)
Theorem update_user_frame user_id data w :
  status (serve (PUT_user user_id data) w).1 = 200 ->
  ∃ u e,
    varchar_param 80 (get_username data) = Some (Some u) ∧
    varchar_param 120 (get_email data) = Some (Some e) ∧
    is_Some (users w !! user_id) ∧
    users (serve (PUT_user user_id data) w).2 = <[user_id := (u, e)]> (users w) ∧
    dom (users (serve (PUT_user user_id data) w).2) = dom (users w) ∧
    (∀ j, j ≠ user_id ->
          users (serve (PUT_user user_id data) w).2 !! j = users w !! j) ∧
    users_id_seq (serve (PUT_user user_id data) w).2 = users_id_seq w.
Proof.
  destruct w as [db t n tx rc ra c nw lg].
  run; crunch; simpl; try discriminate.
  all: intros _; do 2 eexists; repeat split; eauto.
  all: try (apply dom_insert_lookup_L; eauto).
  all: intros j Hj; by rewrite lookup_insert_ne.
Qed.

Lemma update_user_frame_witness :
  status (serve (PUT_user 1 bob) with_alice).1 = 200 ∧
  users (serve (PUT_user 1 bob) with_alice).2
  = <[1 := ("bob", "b@x.com")]> (users with_alice).
Proof.
  split; [reflexivity|].
  destruct (update_user_frame 1 bob with_alice) as (u & e & Hu & He & _ & H & _);
    [reflexivity|].
  simpl in Hu, He. injection Hu as <-. injection He as <-. exact H.
Defined.

(** C10, as stated, fails: an update of row 1 that supplies only a
    username holding a NUL character is stopped by psycopg2 before the store
    sees it, and is answered 500, not 409; so is one whose only field is a
    username of 81 characters; and for an id that has no row the statement
    matches nothing and the answer is 404. *)
Lemma one_field_update_not_409 :
  is_Some (users with_alice !! 1) ∧
  (serve (PUT_user 1 (mkJson (Some nul_name) None)) with_alice).1
  = jsonify (JException ValueError) 500 ∧
  (serve (PUT_user 1 (mkJson (Some long_name) None)) with_alice).1
  = jsonify (JException DataError) 500 ∧
  (serve (PUT_user 9 (mkJson (Some "bob") None)) with_alice).1
  = jsonify (JError "User not found") 404.
Proof. vm_compute. eauto. Qed.

(** C10, amended: an update that leaves out one of the two fields never
    changes a row or the cache entry: the handler writes both columns and
    sends NULL for the missing one, so no such update is committed. When the
    id has a row and the field supplied is non-empty, holds no NUL character
    and fits its column, the store refuses the NULL and the request is
    answered 409 with the uniqueness message. *)
Theorem update_user_one_field user_id data w :
  get_username data = None ∨ get_email data = None ->
  users (serve (PUT_user user_id data) w).2 = users w ∧
  all_users (serve (PUT_user user_id data) w).2 = all_users w ∧
  (ECommit ∉ events_of (PUT_user user_id data) w) ∧
  (∀ s,
     db_alive w = true ->
     is_Some (users w !! user_id) ->
     s ≠ EmptyString ->
     has_nul s = false ->
     (get_username data = Some s ∧ (String.length s ≤ 80)%nat)
     ∨ (get_email data = Some s ∧ (String.length s ≤ 120)%nat) ->
     (serve (PUT_user user_id data) w).1
     = jsonify (JError "Username or Email already exists") 409 ∧
     events_of (PUT_user user_id data) w
     = [EConnect; EExecute UPDATE; ERollback; EClose]).
Proof.
  intros Hnone.
  assert (users (serve (PUT_user user_id data) w).2 = users w ∧
          all_users (serve (PUT_user user_id data) w).2 = all_users w ∧
          (ECommit ∉ events_of (PUT_user user_id data) w)) as (H1 & H2 & H3).
  { unfold events_of. destruct w as [db t n tx rc ra c nw lg].
    destruct data as [du de]. simpl in Hnone.
    destruct Hnone as [-> | ->]; run; crunch; simpl.
    all: rewrite <- ?app_assoc, ?drop_app_length, ?drop_all; simpl.
    all: repeat split; try done.
    all: intros Hin; absent Hin. }
  split; [done|]. split; [done|]. split; [done|].
  intros s Hdb [r Hr] Hs Hz Hcase.
  assert ((serve (PUT_user user_id data) w).1
          = jsonify (JError "Username or Email already exists") 409 ∧
          log (serve (PUT_user user_id data) w).2
          = log w ++ [EConnect; EExecute UPDATE; ERollback; EClose])
    as [Hresp Hlog].
  { destruct Hcase as [[Hf Hl]|[Hf Hl]];
      destruct Hnone as [Hn|Hn]; try congruence.
    all: run; rewrite Hf, Hn, truthy_Some by done; simpl; rewrite Hdb; simpl.
    all: rewrite Hz; simpl; rewrite varchar_fits by done; simpl; rewrite Hr.
    all: tidy; done. }
  split; [done|]. by apply events_of_app.
Qed.

Lemma update_user_one_field_witness :
  is_Some (users with_alice !! 1) ∧
  (serve (PUT_user 1 (mkJson (Some "bob") None)) with_alice).1
  = jsonify (JError "Username or Email already exists") 409 ∧
  users (serve (PUT_user 1 (mkJson (Some "bob") None)) with_alice).2
  = users with_alice.
Proof.
  assert (Hid : is_Some (users with_alice !! 1)) by (vm_compute; eauto).
  split; [exact Hid|].
  destruct (update_user_one_field 1 (mkJson (Some "bob") None) with_alice)
    as (H1 & _ & _ & H4); [right; reflexivity|].
  destruct (H4 "bob") as [H5 _];
    [reflexivity | exact Hid | done | reflexivity | left; simpl; split;
     [reflexivity | lia] | ].
  exact (conj H5 H1).
Defined.

(** ** Creation and the cache *)

(** The create handler makes no call to the cache at all. *)
Lemma create_user_keeps_cache data w :
  all_users (serve (POST_users data) w).2 = all_users w ∧
  filter cache_event (log (serve (POST_users data) w).2)
  = filter cache_event (log w).
Proof.
  destruct w as [db t n tx rc ra c nw lg].
  split; run; crunch; simpl; rewrite ?filter_app; simpl;
    rewrite ?app_nil_r; done.
Qed.

(** C1 fails on the create path. At time 0 a list request caches the empty
    list until time 30; [alice] is then created (201, row 1 committed); the
    snapshot is still there, and a list request at the same instant answers
    with the empty list, although the store holds [alice]. *)
Theorem create_user_leaves_stale_snapshot :
  all_users listed = Some ([], 30) ∧
  (serve (POST_users alice) listed).1
  = jsonify (JUser 1 (Some "alice") (Some "a@x.com")) 201 ∧
  users with_alice !! 1 = Some ("alice", "a@x.com") ∧
  all_users with_alice = Some ([], 30) ∧
  now with_alice = 0 ∧
  serve GET_users with_alice
  = (jsonify (JUsers []) 200, record ERedisGet with_alice).
Proof. vm_compute. done. Qed.

(** ** What a request leaves alone *)

(** No handler changes what is in reach, nor the clock. *)
Lemma serve_environment r w :
  db_alive (serve r w).2 = db_alive w ∧
  redis_client (serve r w).2 = redis_client w ∧
  redis_alive (serve r w).2 = redis_alive w ∧
  now (serve r w).2 = now w.
Proof.
  destruct r; run; simpl.
  all: repeat (case_match; simpl in *; simplify_eq; try done).
Qed.

Lemma list_users_miss w :
  redis_client w = true ->
  redis_alive w = true ->
  db_alive w = true ->
  snapshot w = None ->
  (serve GET_users w).1 = jsonify (JUsers (row <$> map_to_list (users w))) 200.
Proof.
  intros Hc Ha Hdb Hs. run. rewrite Hc. simpl. rewrite Ha.
  change (snapshot (record ERedisGet w)) with (snapshot w). rewrite Hs.
  simpl. rewrite Hdb. simpl. rewrite Hc. simpl. now rewrite Ha.
Qed.

(** ** The table stays well formed *)

Lemma conflict_false_inv t id u e k r :
  conflict t id u e = false -> t !! k = Some r -> k ≠ id ->
  r.1 ≠ u ∧ r.2 ≠ e.
Proof.
  intros Hc Hk Hne. apply bool_decide_eq_false_1 in Hc.
  split; intros Heq; apply Hc; exists k, r; auto.
Qed.

Lemma store_ok_bump t n : store_ok t n -> store_ok t (n + 1).
Proof.
  intros (Hseq & Huniq & Hnul). split; [|done].
  intros i r Hi. specialize (Hseq i r Hi). simpl in *. lia.
Qed.

Lemma store_ok_write t n id u e :
  store_ok t n -> id ≤ n -> conflict t id u e = false ->
  has_nul u = false -> has_nul e = false ->
  store_ok (<[id := (u, e)]> t) n.
Proof.
  intros (Hseq & Huniq & Hnul) Hid Hc Hzu Hze. split; [|split].
  - apply map_Forall_insert_2; done.
  - intros i j r s Hi Hj Hrs.
    destruct (decide (i = j)) as [|Hij]; [done|exfalso].
    rewrite lookup_insert_Some in Hi. rewrite lookup_insert_Some in Hj.
    destruct Hi as [[<- <-]|[Hi1 Hi2]], Hj as [[<- <-]|[Hj1 Hj2]]; try done.
    + destruct (conflict_false_inv _ _ _ _ j s Hc Hj2) as [? ?]; [done|].
      simpl in Hrs. destruct Hrs; congruence.
    + destruct (conflict_false_inv _ _ _ _ i r Hc Hi2) as [? ?]; [done|].
      simpl in Hrs. destruct Hrs; congruence.
    + apply Hij. eauto.
  - apply map_Forall_insert_2; done.
Qed.

Lemma store_ok_delete t n id : store_ok t n -> store_ok (delete id t) n.
Proof.
  intros (Hseq & Huniq & Hnul). split; [|split].
  - by apply map_Forall_delete.
  - intros i j r s Hi Hj. apply lookup_delete_Some in Hi as [_ Hi].
    apply lookup_delete_Some in Hj as [_ Hj]. eauto.
  - by apply map_Forall_delete.
Qed.

(** A parameter psycopg2 can quote holds no NUL, and neither does what
    the column keeps of it. *)
Lemma has_nul_substring n m s :
  has_nul s = false -> has_nul (String.substring n m s) = false.
Proof.
  revert n m. induction s as [|c s IH]; intros [|n] [|m]; simpl; try done.
  all: intros H; apply orb_false_iff in H as [H1 H2].
  all: rewrite ?H1; simpl; auto.
Qed.

Lemma varchar_param_quotable n p s :
  unquotable p = false -> varchar_param n p = Some (Some s) ->
  has_nul s = false.
Proof.
  destruct p as [s0|]; simpl; [|done]. intros Hz.
  unfold varchar. case_decide; simpl; [congruence|].
  case_match; simpl; [|done]. intros [= <-]. by apply has_nul_substring.
Qed.

(** Every handler keeps the table well formed. *)
Lemma serve_well_formed r w : well_formed w -> well_formed (serve r w).2.
Proof.
  unfold well_formed. destruct w as [db t n tx rc ra c nw lg]; simpl.
  intros Hw. destruct r; run; crunch; simpl; try done.
  all: try (by apply store_ok_bump).
  all: try (by apply store_ok_delete).
  all: repeat match goal with
       | H : _ || _ = false |- _ => apply orb_false_iff in H as [? ?]
       end.
  all: apply store_ok_write;
       try (eapply varchar_param_quotable; [|eassumption]; assumption);
       try (by apply store_ok_bump); try done; try lia.
  all: destruct Hw as [Hseq _];
       match goal with H : ?m !! _ = Some _ |- _ => apply (Hseq _ _ H) end.
Qed.

Lemma step_well_formed s w : well_formed w -> well_formed (step w s).
Proof. destruct s; simpl; [apply serve_well_formed|done..]. Qed.

Lemma boot_well_formed db redis : well_formed (boot db redis).
Proof.
  split; [apply map_Forall_empty|]. split; [|apply map_Forall_empty].
  intros i j r s Hi. simpl in Hi. by rewrite lookup_empty in Hi.
Qed.

(** X12: whatever requests were served since start-up, and whatever
    happened to Redis, PostgreSQL and the clock in between, every id in the
    table was handed out by the sequence, no two rows share a username or
    an email, and no stored value holds a NUL character. *)
Lemma history_well_formed db redis l : well_formed (history db redis l).
Proof.
  unfold history.
  assert (Hboot : well_formed (boot db redis)) by apply boot_well_formed.
  revert Hboot. generalize (boot db redis).
  induction l as [|s l IH]; intros w Hw; simpl; [done|].
  apply IH. by apply step_well_formed.
Qed.

(** * Further properties of the handlers *)

(** ** The health check *)

(** X1: the health check always answers with its JSON body, whose "status"
    reads UP whatever it found. The code is 200 exactly when PostgreSQL
    accepts a connection, the service holds a cache client and Redis answers
    the ping, and 503 otherwise; the two fields say which collaborator
    failed, and for the cache whether the client is missing or the ping
    raised. *)
Theorem health_check_report w :
  (serve_health w).1 =
  Some (jsonify_health
          (mkHealth "UP"
             (if db_alive w then "OK" else "ERROR - DB connection failed")
             (if redis_client w
              then if redis_alive w then "OK" else "ERROR - Redis exception"
              else "ERROR - Redis connection failed"))
          (if db_alive w && redis_client w && redis_alive w then 200 else 503)).
Proof.
  unfold serve_health, health_check, redis_ping. run.
  destruct w as [db t n tx rc ra c nw lg]; simpl.
  destruct db, rc, ra; reflexivity.
Qed.

(** X2: the health check writes nothing: rows, sequence, cache entry and
    clock are as they were, and the only calls it logs are the connection
    attempt and, when the connection was made, its close. *)
Theorem health_check_read_only w :
  users (serve_health w).2 = users w ∧
  users_id_seq (serve_health w).2 = users_id_seq w ∧
  all_users (serve_health w).2 = all_users w ∧
  now (serve_health w).2 = now w ∧
  log (serve_health w).2
  = log w ++ (if db_alive w then [EConnect; EClose] else [EConnect]).
Proof.
  unfold serve_health, health_check, redis_ping. run.
  destruct w as [db t n tx rc ra c nw lg]; simpl.
  destruct db, rc, ra; tidy; done.
Qed.

(** ** Requests that are turned down *)

(** X3: a create in which the username or the email is absent, null or
    empty is answered 400 and leaves the world exactly as it was: no
    connection is opened. *)
Theorem create_user_missing_field data w :
  truthy (get_username data) = false ∨ truthy (get_email data) = false ->
  serve (POST_users data) w
  = (jsonify (JError "Missing username or email") 400, w).
Proof.
  intros H. run.
  assert (negb (truthy (get_username data)) || negb (truthy (get_email data))
          = true) as ->; [|done].
  destruct H as [-> | ->]; [done|apply orb_true_r].
Qed.

Lemma create_user_missing_field_witness :
  serve (POST_users (mkJson (Some "carol") None)) with_alice
  = (jsonify (JError "Missing username or email") 400, with_alice).
Proof.
  apply (create_user_missing_field (mkJson (Some "carol") None) with_alice).
  right. reflexivity.
Defined.

(** X4: when PostgreSQL accepts no connection, every request that gets as
    far as asking for one is answered 503 "Database unavailable" after that
    single attempt: a create with both fields, a get, an update with a
    field, a delete, and a list on a service without cache client. Nothing
    else happens to the world. *)
Theorem database_unavailable w :
  db_alive w = false ->
  let unavailable := jsonify (JError "Database unavailable") 503 in
  (∀ data,
     truthy (get_username data) = true -> truthy (get_email data) = true ->
     serve (POST_users data) w = (unavailable, record EConnect w)) ∧
  (∀ user_id, serve (GET_user user_id) w = (unavailable, record EConnect w)) ∧
  (∀ user_id data,
     truthy (get_username data) = true ∨ truthy (get_email data) = true ->
     serve (PUT_user user_id data) w = (unavailable, record EConnect w)) ∧
  (∀ user_id, serve (DELETE_user user_id) w = (unavailable, record EConnect w)) ∧
  (redis_client w = false ->
   serve GET_users w = (unavailable, record EConnect w)).
Proof.
  intros Hdb unavailable. repeat split.
  - intros data Hu He. run. rewrite Hu, He. simpl. now rewrite Hdb.
  - intros user_id. run. simpl. now rewrite Hdb.
  - intros user_id data H. run.
    assert (negb (truthy (get_username data)) && negb (truthy (get_email data))
            = false) as ->.
    { destruct H as [-> | ->]; [done|apply andb_false_r]. }
    simpl. now rewrite Hdb.
  - intros user_id. run. simpl. now rewrite Hdb.
  - intros Hc. run. rewrite Hc. simpl. now rewrite Hdb.
Qed.

Lemma database_unavailable_witness :
  db_alive (set_db_alive false with_alice) = false ∧
  serve (POST_users bob) (set_db_alive false with_alice)
  = (jsonify (JError "Database unavailable") 503,
     record EConnect (set_db_alive false with_alice)) ∧
  serve (DELETE_user 1) (set_db_alive false with_alice)
  = (jsonify (JError "Database unavailable") 503,
     record EConnect (set_db_alive false with_alice)).
Proof.
  split; [reflexivity|].
  destruct (database_unavailable (set_db_alive false with_alice) eq_refl)
    as (Hpost & _ & _ & Hdel & _).
  split; [apply Hpost; reflexivity | apply Hdel].
Defined.

(** X5: with the store in reach, get-by-id answers 200 with the id, username
    and email of the row that has this id, and 404 when no row has it. *)
Theorem get_user_answer user_id w :
  db_alive w = true ->
  (serve (GET_user user_id) w).1
  = match users w !! user_id with
    | Some r => jsonify (JUser user_id (Some r.1) (Some r.2)) 200
    | None => jsonify (JError "User not found") 404
    end.
Proof.
  intros Hdb. run. simpl. rewrite Hdb. simpl.
  now destruct (users w !! user_id).
Qed.

Lemma get_user_answer_witness :
  db_alive with_alice = true ∧
  (serve (GET_user 1) with_alice).1
  = jsonify (JUser 1 (Some "alice") (Some "a@x.com")) 200 ∧
  (serve (GET_user 2) with_alice).1 = jsonify (JError "User not found") 404.
Proof.
  split; [reflexivity|]. split.
  - apply (get_user_answer 1 with_alice). reflexivity.
  - apply (get_user_answer 2 with_alice). reflexivity.
Defined.

(** X6: an update with two non-empty values that hold no NUL character
    and fit their columns, for an id that has a row, that would give this
    row the username or the email another row holds, is answered 409; the
    rows and the cache entry are untouched and no call reaches the cache. *)
Theorem update_user_conflict user_id data u e k r w :
  db_alive w = true ->
  is_Some (users w !! user_id) ->
  get_username data = Some u ->
  get_email data = Some e ->
  u ≠ EmptyString ∨ e ≠ EmptyString ->
  has_nul u = false -> has_nul e = false ->
  (String.length u ≤ 80)%nat ->
  (String.length e ≤ 120)%nat ->
  users w !! k = Some r ->
  k ≠ user_id ->
  r.1 = u ∨ r.2 = e ->
  (serve (PUT_user user_id data) w).1
  = jsonify (JError "Username or Email already exists") 409 ∧
  users (serve (PUT_user user_id data) w).2 = users w ∧
  all_users (serve (PUT_user user_id data) w).2 = all_users w ∧
  log (serve (PUT_user user_id data) w).2
  = log w ++ [EConnect; EExecute UPDATE; ERollback; EClose].
Proof.
  intros Hdb [r0 Hr0] Hu He Hne Hzu Hze Hlu Hle Hk Hkid Hr. run.
  rewrite Hu, He.
  assert (negb (truthy (Some u)) && negb (truthy (Some e)) = false) as ->.
  { destruct Hne as [H|H]; apply truthy_Some in H; rewrite H; simpl; [done|].
    apply andb_false_r. }
  simpl. rewrite Hdb. simpl. rewrite Hzu, Hze. simpl.
  rewrite !varchar_fits by done. simpl.
  rewrite Hr0. simpl. rewrite (conflict_true _ _ _ _ k r) by done.
  tidy. done.
Qed.

Lemma update_user_conflict_witness :
  users with_both !! 1 = Some ("alice", "a@x.com") ∧
  (serve (PUT_user 2 (mkJson (Some "alice") (Some "b@x.com"))) with_both).1
  = jsonify (JError "Username or Email already exists") 409 ∧
  users (serve (PUT_user 2 (mkJson (Some "alice") (Some "b@x.com")))
               with_both).2
  = users with_both.
Proof.
  split; [reflexivity|].
  destruct (update_user_conflict 2 (mkJson (Some "alice") (Some "b@x.com"))
              "alice" "b@x.com" 1 ("alice", "a@x.com") with_both)
    as (H1 & H2 & _);
    [reflexivity | vm_compute; eauto | reflexivity | reflexivity | by left
    | reflexivity | reflexivity | simpl; lia | simpl; lia | reflexivity
    | done | by left | ].
  exact (conj H1 H2).
Defined.

(** X7: an update with two values, one of them non-empty, that hold no NUL
    character and fit their columns, for an id that has no row, is answered
    404; nothing is committed, and the cache entry is not invalidated. *)
Theorem update_user_missing user_id data u e w :
  db_alive w = true ->
  users w !! user_id = None ->
  get_username data = Some u ->
  get_email data = Some e ->
  u ≠ EmptyString ∨ e ≠ EmptyString ->
  has_nul u = false -> has_nul e = false ->
  (String.length u ≤ 80)%nat ->
  (String.length e ≤ 120)%nat ->
  (serve (PUT_user user_id data) w).1 = jsonify (JError "User not found") 404 ∧
  users (serve (PUT_user user_id data) w).2 = users w ∧
  all_users (serve (PUT_user user_id data) w).2 = all_users w ∧
  log (serve (PUT_user user_id data) w).2
  = log w ++ [EConnect; EExecute UPDATE; ERollback; EClose].
Proof.
  intros Hdb Hr Hu He Hne Hzu Hze Hlu Hle. run. rewrite Hu, He.
  assert (negb (truthy (Some u)) && negb (truthy (Some e)) = false) as ->.
  { destruct Hne as [H|H]; apply truthy_Some in H; rewrite H; simpl; [done|].
    apply andb_false_r. }
  simpl. rewrite Hdb. simpl. rewrite Hzu, Hze. simpl.
  rewrite !varchar_fits by done. simpl.
  rewrite Hr. tidy. done.
Qed.

Lemma update_user_missing_witness :
  users with_alice !! 9 = None ∧
  (serve (PUT_user 9 bob) with_alice).1 = jsonify (JError "User not found") 404 ∧
  all_users (serve (PUT_user 9 bob) with_alice).2 = all_users with_alice.
Proof.
  split; [reflexivity|].
  destruct (update_user_missing 9 bob "bob" "b@x.com" with_alice)
    as (H1 & _ & H3 & _);
    [reflexivity | reflexivity | reflexivity | reflexivity | by left
    | reflexivity | reflexivity | simpl; lia | simpl; lia | ].
  exact (conj H1 H3).
Defined.

(** ** What an answer 200 or 201 tells *)

(** What an update answered 200 has done. *)
Lemma update_user_200 user_id data w :
  status (serve (PUT_user user_id data) w).1 = 200 ->
  db_alive w = true ∧
  ∃ u e,
    varchar_param 80 (get_username data) = Some (Some u) ∧
    varchar_param 120 (get_email data) = Some (Some e) ∧
    is_Some (users w !! user_id) ∧
    users (serve (PUT_user user_id data) w).2 = <[user_id := (u, e)]> (users w).
Proof.
  destruct w as [db t n tx rc ra c nw lg].
  run; crunch; simpl; try discriminate.
  all: intros _; split; [done|]; do 2 eexists; repeat split; eauto.
Qed.

(** What a delete answered 200 has done. *)
Lemma delete_user_200 user_id w :
  status (serve (DELETE_user user_id) w).1 = 200 ->
  db_alive w = true ∧
  is_Some (users w !! user_id) ∧
  users (serve (DELETE_user user_id) w).2 = delete user_id (users w) ∧
  users_id_seq (serve (DELETE_user user_id) w).2 = users_id_seq w.
Proof.
  destruct w as [db t n tx rc ra c nw lg].
  run; crunch; simpl; try discriminate.
  all: intros _; repeat split; eauto.
Qed.

Lemma get_user_not_found user_id w :
  db_alive w = true ->
  users w !! user_id = None ->
  (serve (GET_user user_id) w).1 = jsonify (JError "User not found") 404.
Proof.
  intros Hdb Hr. run. simpl. rewrite Hdb. simpl. now rewrite Hr.
Qed.

Lemma delete_user_no_row user_id w :
  db_alive w = true ->
  users w !! user_id = None ->
  (serve (DELETE_user user_id) w).1 = jsonify (JError "User not found") 404.
Proof.
  intros Hdb Hr. run. simpl. rewrite Hdb. simpl. now rewrite Hr.
Qed.



(** What a create answered 201 has done. *)
Lemma create_user_201_row data id uo eo w :
  (serve (POST_users data) w).1 = jsonify (JUser id uo eo) 201 ->
  db_alive w = true ∧
  get_username data = uo ∧ get_email data = eo ∧
  users w !! id = None ∧
  ∃ u e,
    varchar_param 80 (get_username data) = Some (Some u) ∧
    varchar_param 120 (get_email data) = Some (Some e) ∧
    users (serve (POST_users data) w).2 = <[id := (u, e)]> (users w).
Proof.
  destruct w as [db t n tx rc ra c nw lg].
  run; crunch; simpl; try discriminate.
  intros [= <- <- <-].
  repeat match goal with
         | H : _ || _ = false |- _ => apply orb_false_iff in H as [? ?]
         end.
  repeat split; try done.
  - match goal with
    | H : bool_decide (is_Some _) = false |- _ =>
        apply bool_decide_eq_false_1 in H
    end.
    destruct (t !! (n + 1)); [|done]. exfalso; eauto.
  - eauto.
Qed.

(** A list request that finds no cache client, or the cache in reach with no
    live entry, answers with the rows of the store. *)
Lemma list_users_reads_store w :
  db_alive w = true ->
  redis_client w = false ∨ (redis_alive w = true ∧ snapshot w = None) ->
  (serve GET_users w).1 = jsonify (JUsers (row <$> map_to_list (users w))) 200.
Proof.
  intros Hdb [Hc|[Ha Hs]].
  - run. rewrite Hc. simpl. rewrite Hdb. simpl. now rewrite Hc.
  - destruct (redis_client w) eqn:Hc.
    + by apply list_users_miss.
    + run. rewrite Hc. simpl. rewrite Hdb. simpl. now rewrite Hc.
Qed.

(** ** One request after another *)

(** X8: after an update answered 200, with values that fit their columns,
    get-by-id answers with that id and the username and email of the
    update. *)
Theorem update_then_get user_id data u e w :
  status (serve (PUT_user user_id data) w).1 = 200 ->
  get_username data = Some u ->
  get_email data = Some e ->
  (String.length u ≤ 80)%nat ->
  (String.length e ≤ 120)%nat ->
  (serve (GET_user user_id) (serve (PUT_user user_id data) w).2).1
  = jsonify (JUser user_id (Some u) (Some e)) 200.
Proof.
  intros H200 Hu He Hlu Hle.
  destruct (update_user_200 _ _ _ H200) as (Hdb & u' & e' & Hu' & He' & _ & Hw).
  rewrite Hu, varchar_param_fits in Hu' by done.
  rewrite He, varchar_param_fits in He' by done. simplify_eq.
  destruct (serve_environment (PUT_user user_id data) w) as (E1 & _).
  apply (get_user_found user_id (u', e')); [congruence|].
  rewrite Hw. apply lookup_insert_eq.
Qed.

Lemma update_then_get_witness :
  status (serve (PUT_user 1 bob) with_alice).1 = 200 ∧
  (serve (GET_user 1) (serve (PUT_user 1 bob) with_alice).2).1
  = jsonify (JUser 1 (Some "bob") (Some "b@x.com")) 200.
Proof.
  split; [reflexivity|].
  apply (update_then_get 1 bob "bob" "b@x.com" with_alice);
    [reflexivity | reflexivity | reflexivity | simpl; lia | simpl; lia].
Defined.

(** X9: a delete answered 200 has removed the row with that id, which
    existed, and nothing else: every other row and the sequence are as they
    were. Get-by-id and a second delete of the same id are then answered
    404. *)
Theorem delete_user_frame user_id w :
  status (serve (DELETE_user user_id) w).1 = 200 ->
  is_Some (users w !! user_id) ∧
  users (serve (DELETE_user user_id) w).2 = delete user_id (users w) ∧
  (∀ j, j ≠ user_id ->
        users (serve (DELETE_user user_id) w).2 !! j = users w !! j) ∧
  users_id_seq (serve (DELETE_user user_id) w).2 = users_id_seq w ∧
  (serve (GET_user user_id) (serve (DELETE_user user_id) w).2).1
  = jsonify (JError "User not found") 404 ∧
  (serve (DELETE_user user_id) (serve (DELETE_user user_id) w).2).1
  = jsonify (JError "User not found") 404.
Proof.
  intros H200.
  destruct (delete_user_200 _ _ H200) as (Hdb & Hid & Hw & Hseq).
  destruct (serve_environment (DELETE_user user_id) w) as (E1 & _).
  assert (Hgone : users (serve (DELETE_user user_id) w).2 !! user_id = None).
  { rewrite Hw. apply lookup_delete_eq. }
  repeat split; try done.
  - intros j Hj. rewrite Hw. by apply lookup_delete_ne.
  - apply get_user_not_found; [congruence|done].
  - apply delete_user_no_row; [congruence|done].
Qed.

Lemma delete_user_frame_witness :
  status (serve (DELETE_user 1) with_alice).1 = 200 ∧
  users (serve (DELETE_user 1) with_alice).2 = delete 1 (users with_alice) ∧
  (serve (GET_user 1) (serve (DELETE_user 1) with_alice).2).1
  = jsonify (JError "User not found") 404.
Proof.
  split; [reflexivity|].
  destruct (delete_user_frame 1 with_alice) as (_ & H2 & _ & _ & H5 & _);
    [reflexivity|].
  exact (conj H2 H5).
Defined.





(** ** Listing from the store *)

(** X22: a list request that reads the store (no cache client, or the cache
    in reach with no live entry) answers 200 with one entry per row and no
    other: a user is in the answer exactly when the table holds that id with
    that username and email, and the answer is as long as the table. *)
Theorem list_users_every_row w :
  db_alive w = true ->
  redis_client w = false ∨ (redis_alive w = true ∧ snapshot w = None) ->
  ∃ l,
    (serve GET_users w).1 = jsonify (JUsers l) 200 ∧
    (∀ id u e, mkUser id u e ∈ l ↔ users w !! id = Some (u, e)) ∧
    length l = size (users w).
Proof.
  intros Hdb Hmiss. exists (row <$> map_to_list (users w)).
  split; [by apply list_users_reads_store|]. split.
  - intros id u e. apply rows_elem.
  - rewrite length_fmap. apply length_map_to_list.
Qed.

Lemma list_users_every_row_witness :
  ∃ l,
    (serve GET_users no_cache).1 = jsonify (JUsers l) 200 ∧
    (∀ id u e, mkUser id u e ∈ l ↔ users no_cache !! id = Some (u, e)) ∧
    length l = size (users no_cache).
Proof.
  apply (list_users_every_row no_cache); [reflexivity | left; reflexivity].
Defined.

(** X23: after a create answered 201 with a username and an email that
    fit their columns, a list request that reads the store (no cache client,
    or the cache in reach with no live entry) shows the new user under the
    id of the answer, every row the table had, and nothing else. *)
Theorem create_then_list data id u e w :
  (serve (POST_users data) w).1 = jsonify (JUser id (Some u) (Some e)) 201 ->
  redis_client w = false ∨ (redis_alive w = true ∧ snapshot w = None) ->
  (String.length u ≤ 80)%nat ->
  (String.length e ≤ 120)%nat ->
  ∃ l,
    (serve GET_users (serve (POST_users data) w).2).1 = jsonify (JUsers l) 200 ∧
    (∀ u' e', mkUser id u' e' ∈ l ↔ u' = u ∧ e' = e) ∧
    (∀ j u' e', j ≠ id -> (mkUser j u' e' ∈ l ↔ users w !! j = Some (u', e'))) ∧
    length l = S (size (users w)).
Proof.
  intros H201 Hmiss Hlu Hle.
  destruct (create_user_201_row _ _ _ _ _ H201)
    as (Hdb & Hu & He & Hfresh & u0 & e0 & Hu0 & He0 & Hw).
  rewrite Hu, varchar_param_fits in Hu0 by done.
  rewrite He, varchar_param_fits in He0 by done. simplify_eq.
  destruct (serve_environment (POST_users data) w) as (E1 & E2 & E3 & E4).
  destruct (create_user_keeps_cache data w) as [Hcache _].
  exists (row <$> map_to_list (users (serve (POST_users data) w).2)).
  split; [|split; [|split]].
  - apply list_users_reads_store; [congruence|].
    destruct Hmiss as [Hc|[Ha Hs]]; [left; congruence|right].
    split; [congruence|]. unfold snapshot in *. by rewrite Hcache, E4.
  - intros u' e'. rewrite rows_elem, Hw, lookup_insert_eq.
    split; [intros [= -> ->]; done | intros [-> ->]; done].
  - intros j u' e' Hj. by rewrite rows_elem, Hw, lookup_insert_ne.
  - rewrite rows_length, Hw. by apply map_size_insert_None.
Qed.

Lemma create_then_list_witness :
  (serve (POST_users bob) no_cache).1
  = jsonify (JUser 2 (Some "bob") (Some "b@x.com")) 201 ∧
  ∃ l,
    (serve GET_users (serve (POST_users bob) no_cache).2).1
    = jsonify (JUsers l) 200 ∧
    mkUser 2 "bob" "b@x.com" ∈ l ∧
    mkUser 1 "alice" "a@x.com" ∈ l ∧
    length l = 2%nat.
Proof.
  split; [reflexivity|].
  destruct (create_then_list bob 2 "bob" "b@x.com" no_cache)
    as (l & Hresp & Hrow & Hothers & Hlen);
    [reflexivity | left; reflexivity | simpl; lia | simpl; lia | ].
  exists l. split; [exact Hresp|]. split; [by apply Hrow|].
  split; [by apply Hothers|exact Hlen].
Defined.

(** ** Updates at the edges *)

(** X24: the update handler turns a request down as empty only when both
    fields are falsy. With the store in reach and the cache in reach or
    without client, an update with an empty string as email and a username
    that is non-empty, holds no NUL character, has at most 80 characters,
    for an id that has a row, when no other row holds this username or the
    empty email, is answered 200 and the row's email becomes the empty
    string. *)
Theorem update_user_empty_field user_id data u w :
  db_alive w = true ->
  redis_client w = false ∨ redis_alive w = true ->
  is_Some (users w !! user_id) ->
  get_username data = Some u ->
  get_email data = Some EmptyString ->
  u ≠ EmptyString ->
  has_nul u = false ->
  (String.length u ≤ 80)%nat ->
  conflict (users w) user_id u EmptyString = false ->
  (serve (PUT_user user_id data) w).1
  = jsonify (JMessage user_id "User updated") 200 ∧
  users (serve (PUT_user user_id data) w).2 !! user_id = Some (u, EmptyString).
Proof.
  intros Hdb Hcache Hid Hu He Hne Hz Hl Hc.
  destruct (update_user_accepted user_id data u EmptyString w)
    as (H1 & H2 & _); try done; [by left|simpl; lia|].
  split.
  - rewrite H1. destruct Hcache as [-> | ->]; [done|].
    by rewrite andb_false_r.
  - rewrite H2. apply lookup_insert_eq.
Qed.

Lemma update_user_empty_field_witness :
  (serve (PUT_user 1 (mkJson (Some "bob") (Some EmptyString))) with_alice).1
  = jsonify (JMessage 1 "User updated") 200 ∧
  users (serve (PUT_user 1 (mkJson (Some "bob") (Some EmptyString)))
               with_alice).2 !! 1
  = Some ("bob", EmptyString).
Proof.
  apply (update_user_empty_field 1 (mkJson (Some "bob") (Some EmptyString))
           "bob" with_alice);
    [reflexivity | right; reflexivity | vm_compute; eauto | reflexivity
    | reflexivity | done | reflexivity | simpl; lia | by vm_compute].
Defined.

(** X25: on a well-formed table, an update that sends a row its own
    username and email is not a conflict with itself: it is answered 200 and
    the table is unchanged. *)
Theorem update_user_same_values user_id u e w :
  db_alive w = true ->
  redis_client w = false ∨ redis_alive w = true ->
  well_formed w ->
  users w !! user_id = Some (u, e) ->
  u ≠ EmptyString ∨ e ≠ EmptyString ->
  (String.length u ≤ 80)%nat ->
  (String.length e ≤ 120)%nat ->
  (serve (PUT_user user_id (mkJson (Some u) (Some e))) w).1
  = jsonify (JMessage user_id "User updated") 200 ∧
  users (serve (PUT_user user_id (mkJson (Some u) (Some e))) w).2 = users w.
Proof.
  intros Hdb Hcache (_ & Huniq & Hnul) Hid Hne Hlu Hle.
  assert (Hc : conflict (users w) user_id u e = false).
  { apply bool_decide_eq_false_2. intros (k & r & Hk & Hkid & Hr).
    apply Hkid. apply (Huniq k user_id r (u, e)); done. }
  destruct (Hnul user_id (u, e) Hid) as [Hzu Hze]. simpl in Hzu, Hze.
  destruct (update_user_accepted user_id (mkJson (Some u) (Some e)) u e w)
    as (H1 & H2 & _); try done; try (by eauto).
  split.
  - rewrite H1. destruct Hcache as [-> | ->]; [done|].
    by rewrite andb_false_r.
  - rewrite H2. by apply insert_id.
Qed.

Lemma update_user_same_values_witness :
  users with_alice !! 1 = Some ("alice", "a@x.com") ∧
  (serve (PUT_user 1 alice) with_alice).1
  = jsonify (JMessage 1 "User updated") 200 ∧
  users (serve (PUT_user 1 alice) with_alice).2 = users with_alice.
Proof.
  split; [reflexivity|].
  apply (update_user_same_values 1 "alice" "a@x.com" with_alice);
    [reflexivity | right; reflexivity | | reflexivity | by left
    | simpl; lia | simpl; lia].
  apply serve_well_formed, serve_well_formed, boot_well_formed.
Defined.

(** ** Values that do not fit *)

(** X26: a create whose username does not fit VARCHAR(80), or whose email
    does not fit VARCHAR(120), is not turned down as a bad request: the
    insert fails (in the store, or already in psycopg2 when a value also
    holds a NUL character), the handler rolls back and answers 500. Rows,
    sequence and cache entry are as they were. *)
Theorem create_user_too_long data w :
  db_alive w = true ->
  truthy (get_username data) = true ->
  truthy (get_email data) = true ->
  varchar_param 80 (get_username data) = None
  ∨ varchar_param 120 (get_email data) = None ->
  (serve (POST_users data) w).1
  = jsonify
      (JException
         (if unquotable (get_username data) || unquotable (get_email data)
          then ValueError else DataError))
      500 ∧
  users (serve (POST_users data) w).2 = users w ∧
  users_id_seq (serve (POST_users data) w).2 = users_id_seq w ∧
  all_users (serve (POST_users data) w).2 = all_users w ∧
  log (serve (POST_users data) w).2
  = log w ++ [EConnect; EExecute INSERT; ERollback; EClose].
Proof.
  intros Hdb Hu He Hlong. run. rewrite Hu, He. simpl. rewrite Hdb. simpl.
  destruct (unquotable (get_username data) || unquotable (get_email data));
    [tidy; done|].
  destruct Hlong as [-> | Hlong].
  - tidy. done.
  - rewrite Hlong. destruct (varchar_param 80 (get_username data)); tidy; done.
Qed.

Lemma create_user_too_long_witness :
  String.length long_name = 81%nat ∧
  (serve (POST_users (mkJson (Some long_name) (Some "l@x.com"))) with_alice).1
  = jsonify (JException DataError) 500 ∧
  users (serve (POST_users (mkJson (Some long_name) (Some "l@x.com")))
               with_alice).2
  = users with_alice.
Proof.
  split; [reflexivity|].
  destruct (create_user_too_long
              (mkJson (Some long_name) (Some "l@x.com")) with_alice)
    as (H1 & H2 & _);
    [reflexivity | reflexivity | reflexivity | left; reflexivity | ].
  exact (conj H1 H2).
Defined.

(** ** Histories *)

Lemma steps_invariant (P : World -> Prop) (Q : Step -> Prop) :
  (∀ w s, Q s -> P w -> P (step w s)) ->
  ∀ l w, Forall Q l -> P w -> P (fold_left step l w).
Proof.
  intros Hstep l.
  induction l as [|s l IH]; intros w Hl Hw; simpl; [done|].
  inversion Hl; subst. apply IH; [done|]. by apply Hstep.
Qed.

Lemma step_sequence s w : users_id_seq w ≤ users_id_seq (step w s).
Proof.
  destruct w as [db t n tx rc ra c nw lg].
  destruct s as [r| | |]; simpl; try lia.
  destruct r; run; crunch; simpl; lia.
Qed.

Lemma steps_sequence l w : users_id_seq w ≤ users_id_seq (fold_left step l w).
Proof.
  revert w. induction l as [|s l IH]; intros w; simpl; [lia|].
  pose proof (step_sequence s w). specialize (IH (step w s)). lia.
Qed.

(** The id a create answers with is the next value of the sequence. *)
Lemma create_user_201 data id u e w :
  (serve (POST_users data) w).1 = jsonify (JUser id u e) 201 ->
  id = users_id_seq w + 1 ∧ users w !! id = None ∧
  users_id_seq (serve (POST_users data) w).2 = id.
Proof.
  destruct w as [db t n tx rc ra c nw lg].
  run; crunch; simpl; try discriminate.
  intros [= <- <- <-]. repeat split.
  match goal with H : _ || _ = false |- _ =>
    apply orb_false_iff in H as [H _]; apply bool_decide_eq_false_1 in H end.
  destruct (t !! (n + 1)); [|done]. exfalso; eauto.
Qed.

(** X13: ids are never handed out twice. Whatever happens after a world
    [w] (requests, deletes among them, waits, outages), the id a later
    create answers with is larger than every value the sequence had reached
    in [w]. *)
Theorem ids_never_reused data id u e l w :
  (serve (POST_users data) (fold_left step l w)).1 = jsonify (JUser id u e) 201 ->
  users_id_seq w < id.
Proof.
  intros H. apply create_user_201 in H as (-> & _).
  pose proof (steps_sequence l w). lia.
Qed.

Lemma ids_never_reused_witness :
  (serve (POST_users bob) (fold_left step [Serve (DELETE_user 1)] with_alice)).1
  = jsonify (JUser 2 (Some "bob") (Some "b@x.com")) 201 ∧
  users_id_seq with_alice < 2.
Proof.
  split; [reflexivity|].
  apply (ids_never_reused bob 2 (Some "bob") (Some "b@x.com")
           [Serve (DELETE_user 1)] with_alice).
  reflexivity.
Defined.

(** X14: a service that could not reach Redis at start-up never uses the
    cache again, even when Redis comes back: whatever the history, it holds
    no cache client, the cached list stays absent and no call to the cache
    appears in the log. *)
Theorem no_cache_client_ever db l :
  redis_client (history db false l) = false ∧
  all_users (history db false l) = None ∧
  filter cache_event (log (history db false l)) = [].
Proof.
  apply (steps_invariant
           (λ w, redis_client w = false ∧ all_users w = None ∧
                 filter cache_event (log w) = []) (λ _, True)).
  - intros w s _. destruct w as [dbw t n tx rc ra c nw lg]. simpl.
    intros (-> & -> & Hlog).
    destruct s as [r| | |]; simpl; try done.
    destruct r; run; crunch; simpl; rewrite ?filter_app, ?Hlog; done.
  - apply Forall_true. done.
  - done.
Qed.

(** X15: as long as the clock does not run backwards, a cached list never
    has more than 30 seconds left, so 30 seconds after any point of any
    history no cached list is live. *)
Theorem cache_entry_short_lived db redis l d :
  Forall patient l ->
  30 ≤ d ->
  short_lived (history db redis l) ∧
  snapshot (tick d (history db redis l)) = None.
Proof.
  intros Hl Hd.
  assert (H : short_lived (history db redis l)).
  { apply (steps_invariant short_lived patient); [|done|done].
    clear. intros w s Hs. destruct w as [dbw t n tx rc ra c nw lg].
    unfold short_lived. simpl. intros H.
    destruct s as [r|d| |]; simpl in *; try done.
    - destruct r; run; crunch; simpl; intros v0 x0 Heq; simplify_eq;
        eauto; lia.
    - intros v x Heq. specialize (H v x Heq). lia. }
  split; [done|]. unfold snapshot. simpl.
  destruct (all_users (history db redis l)) as [[v x]|] eqn:Heq; [|done].
  specialize (H v x Heq). rewrite bool_decide_eq_false_2; [done|lia].
Qed.

Lemma cache_entry_short_lived_witness :
  all_users (history true true [Serve GET_users; Wait 10]) = Some ([], 30) ∧
  snapshot (tick 30 (history true true [Serve GET_users; Wait 10])) = None.
Proof.
  split; [reflexivity|].
  apply (cache_entry_short_lived true true [Serve GET_users; Wait 10] 30).
  - repeat constructor. simpl. lia.
  - lia.
Defined.

(** X16: while requests are served one at a time, invalidation on update
    and delete keeps the cache right. Start from a world with the cache in
    reach whose cached list, if any, equals the rows of the store; serve,
    one after the other, any requests but creates, let time pass and
    PostgreSQL come and go, with Redis staying in reach. Then the cached
    list still equals the rows of the store, and every list request
    answered 200 shows one user per row of the store and no other. *)
Theorem cache_coherent_without_creates l w :
  redis_client w = true ->
  redis_alive w = true ->
  coherent w ->
  Forall calm l ->
  coherent (fold_left step l w) ∧
  (status (serve GET_users (fold_left step l w)).1 = 200 ->
   ∃ answer,
     (serve GET_users (fold_left step l w)).1 = jsonify (JUsers answer) 200 ∧
     (∀ id u e, mkUser id u e ∈ answer
                ↔ users (fold_left step l w) !! id = Some (u, e)) ∧
     length answer = size (users (fold_left step l w))).
Proof.
  intros Hc Ha Hw Hl.
  assert (H : redis_client (fold_left step l w) = true ∧
              redis_alive (fold_left step l w) = true ∧
              coherent (fold_left step l w)).
  { apply (steps_invariant
             (λ w, redis_client w = true ∧ redis_alive w = true ∧ coherent w)
             calm); [|done|done].
    clear. intros w s Hs. destruct w as [dbw t n tx rc ra c nw lg].
    unfold coherent. simpl. intros (-> & -> & H).
    destruct s as [r| | |]; simpl in *; try done.
    destruct r; try done; run; crunch; simpl; repeat split; try done.
    all: intros v0 x0 Heq; simplify_eq; eauto. }
  destruct H as (Hc' & Ha' & H). split; [done|].
  intros H200. exists (row <$> map_to_list (users (fold_left step l w))).
  split; [|split; [intros id u e; apply rows_elem|apply rows_length]].
  revert Hc' Ha' H H200. generalize (fold_left step l w). clear.
  intros w. destruct w as [dbw t n tx rc ra c nw lg].
  unfold coherent. simpl. intros -> -> H.
  run; unfold snapshot; crunch; simpl; try discriminate; intros _.
  all: try done.
  f_equal. f_equal. eauto.
Qed.

Lemma cache_coherent_without_creates_witness :
  ∃ answer,
    (serve GET_users
       (fold_left step
          [Serve GET_users; Serve (PUT_user 1 bob); Serve GET_users; Wait 5]
          alice_only)).1
    = jsonify (JUsers answer) 200 ∧
    mkUser 1 "bob" "b@x.com" ∈ answer ∧
    length answer = 1%nat.
Proof.
  destruct (cache_coherent_without_creates
              [Serve GET_users; Serve (PUT_user 1 bob); Serve GET_users; Wait 5]
              alice_only)
    as [_ H]; [reflexivity | reflexivity | | | ].
  - intros v x Heq. vm_compute in Heq. discriminate.
  - repeat constructor.
  - destruct (H eq_refl) as (answer & Hresp & Hin & Hlen).
    exists answer. split; [exact Hresp|]. split; [by apply Hin|exact Hlen].
Defined.

(** ** Values fit their columns *)

Lemma substring_prefix_length n s :
  (String.length (String.substring 0 n s) ≤ n)%nat.
Proof.
  revert s. induction n as [|n IH]; intros [|c s]; simpl; try lia.
  specialize (IH s). lia.
Qed.

Lemma varchar_length n s s' :
  varchar n s = Some s' -> (String.length s' ≤ n)%nat.
Proof.
  unfold varchar. case_decide; [congruence|].
  case_match; [|done]. intros [= <-]. apply substring_prefix_length.
Qed.

Lemma varchar_param_length n p s' :
  varchar_param n p = Some (Some s') -> (String.length s' ≤ n)%nat.
Proof.
  destruct p as [s|]; simpl; [|done].
  destruct (varchar n s) as [s0|] eqn:H; simpl; [|done].
  intros [= <-]. by apply varchar_length in H.
Qed.

(** X17: whatever the history since start-up, every stored username has at
    most 80 characters and every stored email at most 120. *)
Theorem stored_values_fit db redis l : fits_columns (history db redis l).
Proof.
  apply (steps_invariant fits_columns (λ _, True)).
  - intros w s _. destruct w as [dbw t n tx rc ra c nw lg].
    unfold fits_columns. simpl. intros H.
    destruct s as [r| | |]; simpl; try done.
    destruct r; run; crunch; simpl; try done.
    all: try (apply map_Forall_insert_2; [|done]; simpl; split;
              eapply varchar_param_length; eassumption).
    all: by apply map_Forall_delete.
  - apply Forall_true. done.
  - apply map_Forall_empty.
Qed.

(** ** Connections *)

(** X18: a request only adds to the log, opens at most one connection, and
    closes every connection it opened before it answers (none is opened
    when PostgreSQL is out of reach); once a connection was closed nothing
    uncommitted is left: the transaction's view is the committed table. *)
Theorem connection_closed r w :
  ∃ l, log (serve r w).2 = log w ++ l ∧
       (length (filter is_connect l) ≤ 1)%nat ∧
       length (filter is_close l)
       = (if db_alive w then length (filter is_connect l) else 0%nat) ∧
       txn (serve r w).2
       = match filter is_close l with
         | [] => txn w
         | _ => users (serve r w).2
         end.
Proof.
  destruct w as [db t n tx rc ra c nw lg].
  destruct r; run; crunch; simpl.
  all: first
    [ exists []; rewrite app_nil_r; simpl; repeat split; lia
    | rewrite <- ?app_assoc; simpl; eexists; split; [reflexivity|]; simpl;
      repeat split; lia ].
Qed.

(** ** What an answer says about the world *)

(** X19: an answer 400, 404, 409 or 503 means that nothing was written: the
    rows of the store and the cache entry are as they were before the
    request. *)
Theorem refused_unchanged r w :
  refused (status (serve r w).1) = true ->
  users (serve r w).2 = users w ∧ all_users (serve r w).2 = all_users w.
Proof.
  unfold refused. destruct w as [db t n tx rc ra c nw lg].
  destruct r; run; crunch; simpl; try done.
  all: rewrite bool_decide_eq_true; intros H; exfalso; lia.
Qed.

Lemma refused_unchanged_witness :
  status (serve (DELETE_user 7) with_alice).1 = 404 ∧
  users (serve (DELETE_user 7) with_alice).2 = users with_alice ∧
  all_users (serve (DELETE_user 7) with_alice).2 = all_users with_alice.
Proof.
  split; [reflexivity|].
  apply (refused_unchanged (DELETE_user 7) with_alice). reflexivity.
Defined.

(** X20: the two read handlers never write to the store: rows and sequence
    are unchanged by a list and by a get-by-id, in every world. Get-by-id
    also leaves the cache entry alone and makes no call to the cache. *)
Theorem reads_never_write w :
  users (serve GET_users w).2 = users w ∧
  users_id_seq (serve GET_users w).2 = users_id_seq w ∧
  (∀ user_id,
     users (serve (GET_user user_id) w).2 = users w ∧
     users_id_seq (serve (GET_user user_id) w).2 = users_id_seq w ∧
     all_users (serve (GET_user user_id) w).2 = all_users w ∧
     filter cache_event (log (serve (GET_user user_id) w).2)
     = filter cache_event (log w)).
Proof.
  destruct w as [db t n tx rc ra c nw lg].
  repeat split; run; crunch; simpl; rewrite ?filter_app; simpl;
    rewrite ?app_nil_r; done.
Qed.

(** X21: the status codes of each route, from what [request.get_json()]
    finds on. A create answers 201, 400, 409, 415, 500 or 503; a list 200,
    500 or 503; a get-by-id 200, 404, 500 or 503; an update 200, 400, 404,
    409, 415, 500 or 503; a delete 200, 404, 500 or 503. *)
Theorem status_codes w :
  (∀ p, answer_status (with_json p POST_users w).1
        ∈ [201; 400; 409; 415; 500; 503]) ∧
  status (serve GET_users w).1 ∈ [200; 500; 503] ∧
  (∀ user_id, status (serve (GET_user user_id) w).1 ∈ [200; 404; 500; 503]) ∧
  (∀ user_id p, answer_status (with_json p (PUT_user user_id) w).1
                ∈ [200; 400; 404; 409; 415; 500; 503]) ∧
  (∀ user_id, status (serve (DELETE_user user_id) w).1 ∈ [200; 404; 500; 503]).
Proof.
  destruct w as [db t n tx rc ra c nw lg].
  repeat split; try intros user_id; try intros p; try destruct p;
    unfold with_json; simpl; try (present; fail).
  all: run; crunch; simpl; present.
Qed.
